(** * GoSynch: the serial-port watchdog of [GoSynch.py]

    A shallow embedding of [SerialMonitorThread] (the monitoring thread:
    [__init__], [run], [stop]) and of the parts of [SerialMonitorApp] that
    create and stop it ([start_monitoring], [stop_monitoring],
    [on_error_occurred]), followed by the properties of the watchdog.

    Conventions of the embedding.
    - Python text ([str]) is a list of Unicode code points.
    - A [datetime] is the number of microseconds it denotes on the local
      wall clock; the difference of two of them is a [timedelta], again in
      microseconds.  [timedelta.total_seconds()] is the binary64 number
      nearest to the quotient by [10**6], and
      [time_diff > self.timeout_seconds] compares that number with the
      integer.
    - Everything the thread obtains from outside (the result of opening the
      port, [in_waiting], [readline], each reading of [datetime.now()], and
      whether [stop] has cleared [is_running] in the meantime) is an
      explicit input, one record per iteration of the [while] loop.
    - The body of [run] may never return; [run] is therefore evaluated on a
      finite prefix of the inputs and reports whether the thread has
      finished or is still iterating.
    - [strftime] and [int(...)] belong to the Python runtime and stay
      abstract. *)

From Stdlib Require Import ZArith NArith List Bool Lia.
Import ListNotations.
Open Scope Z_scope.

(** ** Text *)

Definition char := N.
Definition str := list char.

(** [str.isspace] for a single code point, as used by [str.strip()]. *)
Definition isspace (c : char) : bool :=
  ((9 <=? c) && (c <=? 13) || (28 <=? c) && (c <=? 32)
   || (c =? 133) || (c =? 160) || (c =? 5760)
   || (8192 <=? c) && (c <=? 8202)
   || (c =? 8232) || (c =? 8233) || (c =? 8239) || (c =? 8287)
   || (c =? 12288))%N.

Fixpoint lstrip (s : str) : str :=
  match s with
  | [] => []
  | c :: s' => if isspace c then lstrip s' else s
  end.

Definition rstrip (s : str) : str := rev (lstrip (rev s)).

Definition strip (s : str) : str := rstrip (lstrip s).

(** The three message prefixes of [run]: "数据读取错误: ", "串口连接错误: " and
    "最后数据时间: ". *)
Definition read_error_prefix : str :=
  [0x6570; 0x636e; 0x8bfb; 0x53d6; 0x9519; 0x8bef; 0x3a; 0x20]%N.
Definition connect_error_prefix : str :=
  [0x4e32; 0x53e3; 0x8fde; 0x63a5; 0x9519; 0x8bef; 0x3a; 0x20]%N.
Definition last_data_prefix : str :=
  [0x6700; 0x540e; 0x6570; 0x636e; 0x65f6; 0x95f4; 0x3a; 0x20]%N.

(** ** Time *)

Definition datetime := Z.
Definition timedelta := Z.

Definition microseconds (seconds : Z) : timedelta := seconds * 1000000.

(** [timedelta.total_seconds()] divides the microseconds by [10**6] and
    returns the nearest binary64 number, ties going to the even mantissa;
    Python then compares that number with the integer exactly. *)

(** The integer nearest to [N / D], for [D > 0], ties to even. *)
Definition round_half_even (N D : Z) : Z :=
  let k := N / D in
  let r := N mod D in
  match 2 * r ?= D with
  | Lt => k
  | Gt => k + 1
  | Eq => if Z.even k then k else k + 1
  end.

(** The binary64 number nearest to [a / 10**6] for [a > 0], as the pair
    [(m, s)] that stands for [m / 2^s]: the shift [s] brings the quotient
    into [[2^52, 2^53)], where it is rounded to the 53-bit mantissa [m]. *)
Definition binary64_of_microseconds (a : Z) : Z * Z :=
  let e := Z.log2 a - Z.log2 1000000 in
  let s0 := 52 - e in
  let s := if a * 2 ^ s0 <? 2 ^ 52 * 1000000 then s0 + 1 else s0 in
  (round_half_even (a * 2 ^ s) 1000000, s).

(** [td.total_seconds() > n] for an integer [n]. *)
Definition total_seconds_gt (td : timedelta) (n : Z) : bool :=
  match td ?= 0 with
  | Eq => n <? 0
  | Gt => let (m, s) := binary64_of_microseconds td in n * 2 ^ s <? m
  | Lt => let (m, s) := binary64_of_microseconds (- td) in m <? (- n) * 2 ^ s
  end.

(** [datetime.max - datetime.min], in microseconds: no two values of
    [datetime] are further apart. *)
Definition max_timedelta : timedelta := 315537897599999999.

(** [time_diff > timeout_seconds], where [time_diff] is the
    [total_seconds()] of a difference of two [datetime] values.  Beyond
    [max_timedelta], where the program cannot get, the integers of the
    model are compared as they are. *)
Definition exceeds (time_diff : timedelta) (seconds : Z) : bool :=
  if Z.abs time_diff <=? max_timedelta
  then total_seconds_gt time_diff seconds
  else microseconds seconds <? time_diff.
Arguments exceeds : simpl never.

(** ** Exceptions and results *)

Inductive exception := Exception (message : str).

Definition str_exc (e : exception) : str :=
  match e with Exception m => m end.

Inductive result (A : Type) :=
| Returns (a : A)
| Raises (e : exception).
Arguments Returns {A} a.
Arguments Raises {A} e.

(** ** The thread object *)

Record Serial := {
  ser_port : str;
  ser_baudrate : Z;
  ser_timeout : Z;
  is_open : bool
}.

Definition close (c : Serial) : Serial :=
  {| ser_port := ser_port c; ser_baudrate := ser_baudrate c;
     ser_timeout := ser_timeout c; is_open := false |}.

Record SerialMonitorThread := {
  port : str;
  baudrate : Z;
  timeout_seconds : Z;
  serial_conn : option Serial;
  is_running : bool;
  last_received_time : option datetime
}.

(** [SerialMonitorThread.__init__] *)
Definition SerialMonitorThread_init (p : str) (b t : Z) : SerialMonitorThread :=
  {| port := p; baudrate := b; timeout_seconds := t;
     serial_conn := None; is_running := false; last_received_time := None |}.

Definition set_serial_conn (th : SerialMonitorThread) (c : option Serial) :=
  {| port := port th; baudrate := baudrate th;
     timeout_seconds := timeout_seconds th;
     serial_conn := c; is_running := is_running th;
     last_received_time := last_received_time th |}.

Definition set_is_running (th : SerialMonitorThread) (b : bool) :=
  {| port := port th; baudrate := baudrate th;
     timeout_seconds := timeout_seconds th;
     serial_conn := serial_conn th; is_running := b;
     last_received_time := last_received_time th |}.

Definition set_last_received_time (th : SerialMonitorThread) (t : datetime) :=
  {| port := port th; baudrate := baudrate th;
     timeout_seconds := timeout_seconds th;
     serial_conn := serial_conn th; is_running := is_running th;
     last_received_time := Some t |}.

(** [SerialMonitorThread.stop]: clears the flag; the bounded [wait(1000)]
    that follows does not touch the object. *)
Definition stop (th : SerialMonitorThread) : SerialMonitorThread :=
  set_is_running th false.

(** ** Signals *)

Inductive signal :=
| data_received (data : str)
| timeout_occurred (info : str)
| error_occurred (msg : str).

Definition is_data (s : signal) : bool :=
  match s with data_received _ => true | _ => false end.
Definition is_timeout (s : signal) : bool :=
  match s with timeout_occurred _ => true | _ => false end.
Definition is_error (s : signal) : bool :=
  match s with error_occurred _ => true | _ => false end.

(** ** Inputs of the thread *)

(** What one iteration of the [while] loop obtains from outside. *)
Record tick := {
  stop_called : bool;        (* [stop] ran before this evaluation of the loop test *)
  in_waiting : result Z;     (* [self.serial_conn.in_waiting] *)
  readline : result str;     (* [readline().decode('utf-8', errors='ignore')] *)
  now_recv : datetime;       (* [datetime.now()] on receipt of a line *)
  now_check : datetime       (* [datetime.now()] of the timeout check *)
}.

Record session := {
  open_port : result unit;   (* [serial.Serial(...)] *)
  now_start : datetime;      (* [datetime.now()] right after the open *)
  ticks : list tick
}.

Inductive loop_exit :=
| Exhausted                  (* still iterating when the recorded inputs end *)
| Stopped                    (* the loop test found [is_running] false *)
| Raised (e : exception).    (* an exception left the loop body *)

Inductive status := Alive | Finished.

Section Run.

(** [datetime.strftime("%Y-%m-%d %H:%M:%S")] *)
Variable strftime : datetime -> str.

(** The first [if] of the loop body: read one line when bytes are waiting. *)
Definition read_block (th : SerialMonitorThread) (e : tick)
  : result (list signal * SerialMonitorThread) :=
  match serial_conn th with
  | None => Returns ([], th)
  | Some _ =>
    match in_waiting e with
    | Raises ex => Raises ex
    | Returns n =>
      if 0 <? n then
        match readline e with
        | Raises ex =>
            Returns ([error_occurred (read_error_prefix ++ str_exc ex)], th)
        | Returns data =>
            match strip data with
            | [] => Returns ([], th)
            | _ :: _ =>
                Returns ([data_received (strip data)],
                         set_last_received_time th (now_recv e))
            end
        end
      else Returns ([], th)
    end
  end.

(** The second [if] of the loop body: the timeout check. *)
Definition timeout_block (th : SerialMonitorThread) (e : tick)
  : list signal * SerialMonitorThread :=
  match last_received_time th with
  | None => ([], th)
  | Some last =>
    let current_time := now_check e in
    let time_diff := current_time - last in
    if exceeds time_diff (timeout_seconds th) then
      ([timeout_occurred (last_data_prefix ++ strftime last)],
       set_last_received_time th current_time)
    else ([], th)
  end.

(** The signal a timeout check emits when it finds the baseline [l]. *)
Definition fired (l : datetime) : signal :=
  timeout_occurred (last_data_prefix ++ strftime l).

(** One iteration of the loop body (the [msleep(100)] only passes time). *)
Definition loop_body (th : SerialMonitorThread) (e : tick)
  : result (list signal * SerialMonitorThread) :=
  match read_block th e with
  | Raises ex => Raises ex
  | Returns (evs, th1) =>
      let (evs2, th2) := timeout_block th1 e in
      Returns (evs ++ evs2, th2)
  end.

(** [while self.is_running: ...] *)
Fixpoint while_is_running (th : SerialMonitorThread) (env : list tick)
  : list signal * SerialMonitorThread * loop_exit :=
  match env with
  | [] => ([], th, Exhausted)
  | e :: env' =>
    let th0 := if stop_called e then stop th else th in
    if is_running th0 then
      match loop_body th0 e with
      | Raises ex => ([], th0, Raised ex)
      | Returns (evs, th1) =>
          let '(evs', th2, ex) := while_is_running th1 env' in
          (evs ++ evs', th2, ex)
      end
    else ([], th0, Stopped)
  end.

(** The [finally] clause of [run]. *)
Definition finally_block (th : SerialMonitorThread) : SerialMonitorThread :=
  match serial_conn th with
  | Some c => if is_open c then set_serial_conn th (Some (close c)) else th
  | None => th
  end.

(** The three assignments of [run] that follow a successful open. *)
Definition opened (th : SerialMonitorThread) (now : datetime)
  : SerialMonitorThread :=
  let c := {| ser_port := port th; ser_baudrate := baudrate th;
              ser_timeout := 1; is_open := true |} in
  let th1 := set_serial_conn th (Some c) in
  let th2 := set_is_running th1 true in
  set_last_received_time th2 now.

(** [SerialMonitorThread.run] *)
Definition run (th : SerialMonitorThread) (s : session)
  : list signal * SerialMonitorThread * status :=
  match open_port s with
  | Raises ex =>
      ([error_occurred (connect_error_prefix ++ str_exc ex)],
       finally_block th, Finished)
  | Returns _ =>
      match while_is_running (opened th (now_start s)) (ticks s) with
      | (evs, th4, Exhausted) => (evs, th4, Alive)
      | (evs, th4, Stopped) => (evs, finally_block th4, Finished)
      | (evs, th4, Raised ex) =>
          (evs ++ [error_occurred (connect_error_prefix ++ str_exc ex)],
           finally_block th4, Finished)
      end
  end.

End Run.

(** ** The application

    Thread objects live in a store and are shared by reference: the window
    keeps a reference in [monitor_thread], the worker runs [run] on the same
    object.  Labels, colours and message boxes are presentation and are not
    part of the model. *)

Definition ref := nat.
Definition store := list SerialMonitorThread.

Definition alloc (h : store) (o : SerialMonitorThread) : ref * store :=
  (length h, h ++ [o]).

Fixpoint update (h : store) (r : ref)
    (f : SerialMonitorThread -> SerialMonitorThread) : store :=
  match h, r with
  | [], _ => []
  | o :: h', O => f o :: h'
  | o :: h', S r' => o :: update h' r' f
  end.

Record SerialMonitorApp := {
  monitor_thread : option ref;
  port_combo : list str;        (* the items of the combo box *)
  port_current : str;           (* [port_combo.currentText()] *)
  baud_edit : str;              (* [baud_edit.text()] *)
  timeout_edit : str            (* [timeout_edit.text()] *)
}.

Definition set_monitor_thread (app : SerialMonitorApp) (r : option ref) :=
  {| monitor_thread := r; port_combo := port_combo app;
     port_current := port_current app; baud_edit := baud_edit app;
     timeout_edit := timeout_edit app |}.

Inductive start_result :=
| NoPort                      (* warning: no serial port available *)
| BadBaudrate                 (* warning: the baud rate is not an integer *)
| BadTimeout                  (* warning: the timeout is not an integer *)
| Started (r : ref).          (* a thread was created and started *)

Section App.

(** [int(text)]; [None] stands for [ValueError]. *)
Variable py_int : str -> option Z.

(** [SerialMonitorApp.start_monitoring] *)
Definition start_monitoring (h : store) (app : SerialMonitorApp)
  : store * SerialMonitorApp * start_result :=
  match port_combo app with
  | [] => (h, app, NoPort)
  | _ :: _ =>
    match py_int (baud_edit app) with
    | None => (h, app, BadBaudrate)
    | Some b =>
      match py_int (timeout_edit app) with
      | None => (h, app, BadTimeout)
      | Some t =>
          let (r, h') := alloc h (SerialMonitorThread_init (port_current app) b t) in
          (h', set_monitor_thread app (Some r), Started r)
      end
    end
  end.

End App.

(** [SerialMonitorApp.stop_monitoring] *)
Definition stop_monitoring (h : store) (app : SerialMonitorApp)
  : store * SerialMonitorApp :=
  match monitor_thread app with
  | Some r => (update h r stop, set_monitor_thread app None)
  | None => (h, app)
  end.

(** [SerialMonitorApp.on_error_occurred], the slot connected to
    [error_occurred]. *)
Definition on_error_occurred (h : store) (app : SerialMonitorApp) (msg : str)
  : store * SerialMonitorApp :=
  stop_monitoring h app.

(** ** Vocabulary of the statements *)

Definition events {A B : Type} (r : list signal * A * B) : list signal :=
  fst (fst r).

Definition timeouts (evs : list signal) : list signal := filter is_timeout evs.
Definition errors (evs : list signal) : list signal := filter is_error evs.
Definition datas (evs : list signal) : list signal := filter is_data evs.

(** The connection of the thread holds no open handle. *)
Definition released (th : SerialMonitorThread) : Prop :=
  match serial_conn th with
  | Some c => is_open c = false
  | None => True
  end.

(** The line a tick hands over: bytes are waiting, [readline] returns, and
    the text is not blank. *)
Definition delivers (e : tick) : option str :=
  match in_waiting e, readline e with
  | Returns n, Returns data =>
      if 0 <? n then
        match strip data with [] => None | _ :: _ => Some (strip data) end
      else None
  | _, _ => None
  end.

(** A tick of a silent connection: nothing is waiting. *)
Definition silent (e : tick) : Prop := in_waiting e = Returns 0.

(** The readings of [datetime.now()] a tick makes, in program order. *)
Definition readings (e : tick) : list datetime :=
  match delivers e with
  | Some _ => [now_recv e; now_check e]
  | None => [now_check e]
  end.

Definition clock (env : list tick) : list datetime := flat_map readings env.

(** The receipt times of the lines handed over during [env]. *)
Definition receipts (env : list tick) : list datetime :=
  flat_map (fun e => match delivers e with
                     | Some _ => [now_recv e]
                     | None => []
                     end) env.

(** [R] holds between every element of the list and its successor. *)
Fixpoint neighbours (R : datetime -> datetime -> Prop) (l : list datetime)
  : Prop :=
  match l with
  | a :: (b :: _) as l' => R a b /\ neighbours R l'
  | _ => True
  end.



(** Successive instants are less than [hi] apart. *)
Definition closer_than (hi : timedelta) : list datetime -> Prop :=
  neighbours (fun a b => b - a < hi).

(** The clock does not go back. *)
Definition monotone : list datetime -> Prop := neighbours Z.le.

(** ** The window

    The widgets [SerialMonitorApp] shows and the slots that update them.
    The thread objects stay in the store and the form stays in the record
    of the application; a window adds the button, the status label, the two
    lists and the refresh timer. *)

From Stdlib Require Ascii String.

(** The style sheets, which are ASCII text. *)
Module StyleSheet.
Import String.

Definition ascii_text (s : string) : str :=
  map Ascii.N_of_ascii (list_ascii_of_string s).

Definition green_button : str :=
  ascii_text "QPushButton { background-color: #4CAF50; color: white; }".
Definition red_button : str :=
  ascii_text "QPushButton { background-color: #f44336; color: white; }".
Definition grey_label : str :=
  ascii_text "QLabel { background-color: #e0e0e0; padding: 5px; }".
Definition green_label : str :=
  ascii_text "QLabel { background-color: #4CAF50; color: white; padding: 5px; }".
Definition red_label : str :=
  ascii_text "QLabel { background-color: #ffcdd2; padding: 5px; }".

End StyleSheet.

Module Window.

(** The texts of the window: "开始监控", "停止监控", "就绪", "监控已停止",
    "正在监控 ", "，波特率 ", "错误: ", "串口超时 - ", "警告", "没有可用的串口!",
    "波特率必须是整数!", "超时时间必须是整数!" and "错误". *)
Definition start_text : str := [0x5f00; 0x59cb; 0x76d1; 0x63a7]%N.
Definition stop_text : str := [0x505c; 0x6b62; 0x76d1; 0x63a7]%N.
Definition ready_text : str := [0x5c31; 0x7eea]%N.
Definition stopped_text : str := [0x76d1; 0x63a7; 0x5df2; 0x505c; 0x6b62]%N.
Definition monitoring_text : str := [0x6b63; 0x5728; 0x76d1; 0x63a7; 0x20]%N.
Definition baud_text : str := [0xff0c; 0x6ce2; 0x7279; 0x7387; 0x20]%N.
Definition error_text : str := [0x9519; 0x8bef; 0x3a; 0x20]%N.
Definition timeout_text : str :=
  [0x4e32; 0x53e3; 0x8d85; 0x65f6; 0x20; 0x2d; 0x20]%N.
Definition warning_title : str := [0x8b66; 0x544a]%N.
Definition no_port_text : str :=
  [0x6ca1; 0x6709; 0x53ef; 0x7528; 0x7684; 0x4e32; 0x53e3; 0x21]%N.
Definition bad_baudrate_text : str :=
  [0x6ce2; 0x7279; 0x7387; 0x5fc5; 0x987b; 0x662f; 0x6574; 0x6570; 0x21]%N.
Definition bad_timeout_text : str :=
  [0x8d85; 0x65f6; 0x65f6; 0x95f4; 0x5fc5; 0x987b; 0x662f; 0x6574; 0x6570;
   0x21]%N.
Definition error_title : str := [0x9519; 0x8bef]%N.

(** The default contents of the two line edits, "9600" and "600". *)
Definition default_baud : str := [0x39; 0x36; 0x30; 0x30]%N.
Definition default_timeout : str := [0x36; 0x30; 0x30]%N.

(** A button or a label: [setText] and [setStyleSheet]. *)
Record widget := { w_text : str; w_style : str }.

(** An entry of a [QListWidget]; [background] is set on timeout records
    only, to [QColor(255, 235, 238)]. *)
Record item := { i_text : str; background : option (Z * Z * Z) }.

Inductive dialog :=
| warning (title text : str)      (* [QMessageBox.warning] *)
| critical (title text : str).    (* [QMessageBox.critical] *)

Record SerialMonitorWindow := {
  core : SerialMonitorApp;
  start_btn : widget;
  status_label : widget;
  record_list : list item;
  data_list : list item;
  refresh_timer : bool            (* [refresh_timer.isActive()] *)
}.

Definition set_core (w : SerialMonitorWindow) (a : SerialMonitorApp) :=
  {| core := a; start_btn := start_btn w; status_label := status_label w;
     record_list := record_list w; data_list := data_list w;
     refresh_timer := refresh_timer w |}.

Definition set_buttons (w : SerialMonitorWindow) (b l : widget) :=
  {| core := core w; start_btn := b; status_label := l;
     record_list := record_list w; data_list := data_list w;
     refresh_timer := refresh_timer w |}.

Definition set_lists (w : SerialMonitorWindow) (r d : list item) :=
  {| core := core w; start_btn := start_btn w;
     status_label := status_label w;
     record_list := r; data_list := d;
     refresh_timer := refresh_timer w |}.

Definition set_refresh_timer (w : SerialMonitorWindow) (b : bool) :=
  {| core := core w; start_btn := start_btn w;
     status_label := status_label w;
     record_list := record_list w; data_list := data_list w;
     refresh_timer := b |}.

Definition set_ports (a : SerialMonitorApp) (items : list str) (cur : str) :=
  {| monitor_thread := monitor_thread a; port_combo := items;
     port_current := cur; baud_edit := baud_edit a;
     timeout_edit := timeout_edit a |}.

Definition set_baud_edit (a : SerialMonitorApp) (t : str) :=
  {| monitor_thread := monitor_thread a; port_combo := port_combo a;
     port_current := port_current a; baud_edit := t;
     timeout_edit := timeout_edit a |}.

Definition set_timeout_edit (a : SerialMonitorApp) (t : str) :=
  {| monitor_thread := monitor_thread a; port_combo := port_combo a;
     port_current := port_current a; baud_edit := baud_edit a;
     timeout_edit := t |}.

Fixpoint str_eqb (a b : str) : bool :=
  match a, b with
  | [], [] => true
  | x :: a', y :: b' => (x =? y)%N && str_eqb a' b'
  | _, _ => false
  end.

(** [port_combo.findText(t) >= 0] *)
Definition found (items : list str) (t : str) : bool :=
  existsb (str_eqb t) items.

(** [refresh_ports]; [ports] are the device names [comports()] returns. *)
Definition refresh_ports (w : SerialMonitorWindow) (ports : list str)
  : SerialMonitorWindow :=
  let current_selection := port_current (core w) in
  let cur :=
    match current_selection with
    | _ :: _ =>
        if found ports current_selection then current_selection
        else match ports with [] => [] | p :: _ => p end
    | [] => match ports with [] => [] | p :: _ => p end
    end in
  set_core w (set_ports (core w) ports cur).

(** [init_ui] followed by the first [refresh_ports] and the start of the
    refresh timer, as in [SerialMonitorApp.__init__]. *)
Definition init (ports : list str) : SerialMonitorWindow :=
  refresh_ports
    {| core := {| monitor_thread := None; port_combo := [];
                  port_current := []; baud_edit := default_baud;
                  timeout_edit := default_timeout |};
       start_btn := {| w_text := start_text;
                       w_style := StyleSheet.green_button |};
       status_label := {| w_text := ready_text;
                          w_style := StyleSheet.grey_label |};
       record_list := []; data_list := [];
       refresh_timer := true |}
    ports.

(** [stop_monitoring], with the button and the label. *)
Definition stop_monitoring (h : store) (w : SerialMonitorWindow)
  : store * SerialMonitorWindow :=
  let (h', a) := stop_monitoring h (core w) in
  (h', set_buttons (set_core w a)
         {| w_text := start_text; w_style := StyleSheet.green_button |}
         {| w_text := stopped_text; w_style := StyleSheet.grey_label |}).

(** [on_data_received]: at most 100 entries are kept. *)
Definition data_item (stamp data : str) : item :=
  {| i_text := [0x5b]%N ++ stamp ++ [0x5d; 0x20]%N ++ data;
     background := None |}.

Definition add_data (l : list item) (it : item) : list item :=
  let l' := l ++ [it] in
  if (100 <? length l')%nat then tl l' else l'.

(** [on_timeout_occurred] *)
Definition timeout_item (stamp info : str) : item :=
  {| i_text := [0x5b]%N ++ stamp ++ [0x5d; 0x20]%N ++ timeout_text ++ info;
     background := Some (255, 235, 238) |}.

(** [clear_records] *)
Definition clear_records (w : SerialMonitorWindow) : SerialMonitorWindow :=
  set_lists w [] [].

(** [closeEvent] *)
Definition closeEvent (h : store) (w : SerialMonitorWindow)
  : store * SerialMonitorWindow :=
  let (h', w') := stop_monitoring h w in
  (h', if refresh_timer w' then set_refresh_timer w' false else w').

(** [on_error_occurred], with the label and the message box. *)
Definition on_error_occurred (h : store) (w : SerialMonitorWindow) (msg : str)
  : store * SerialMonitorWindow * list dialog :=
  let w1 := set_buttons w (start_btn w)
              {| w_text := error_text ++ msg;
                 w_style := StyleSheet.red_label |} in
  let (h', w2) := stop_monitoring h w1 in
  (h', w2, [critical error_title msg]).

Section Slots.

Variable py_int : str -> option Z.        (* [int(text)] *)
Variable str_int : Z -> str.              (* an integer inside an f-string *)
Variable strftime : datetime -> str.      (* "%Y-%m-%d %H:%M:%S" *)
Variable strftime_hms : datetime -> str.  (* "%H:%M:%S" *)

(** [start_monitoring], with the warnings, the button and the label. *)
Definition start_monitoring (h : store) (w : SerialMonitorWindow)
  : store * SerialMonitorWindow * list dialog :=
  match port_combo (core w) with
  | [] => (h, w, [warning warning_title no_port_text])
  | _ :: _ =>
    let port := port_current (core w) in
    match py_int (baud_edit (core w)) with
    | None => (h, w, [warning warning_title bad_baudrate_text])
    | Some baudrate =>
      match py_int (timeout_edit (core w)) with
      | None => (h, w, [warning warning_title bad_timeout_text])
      | Some timeout_seconds =>
          let (r, h') :=
            alloc h (SerialMonitorThread_init port baudrate timeout_seconds) in
          (h',
           set_buttons (set_core w (set_monitor_thread (core w) (Some r)))
             {| w_text := stop_text; w_style := StyleSheet.red_button |}
             {| w_text := monitoring_text ++ port ++ baud_text
                            ++ str_int baudrate;
                w_style := StyleSheet.green_label |},
           [])
      end
    end
  end.

(** [toggle_monitoring]; [isRunning] is [QThread.isRunning()] of the
    monitored thread. *)
Definition toggle_monitoring (h : store) (w : SerialMonitorWindow)
    (isRunning : bool) : store * SerialMonitorWindow * list dialog :=
  match monitor_thread (core w) with
  | Some _ =>
      if isRunning then (stop_monitoring h w, []) else start_monitoring h w
  | None => start_monitoring h w
  end.

(** [on_data_received] at time [now] *)
Definition on_data_received (w : SerialMonitorWindow) (now : datetime)
    (data : str) : SerialMonitorWindow :=
  set_lists w (record_list w)
    (add_data (data_list w) (data_item (strftime_hms now) data)).

(** [on_timeout_occurred] at time [now] *)
Definition on_timeout_occurred (w : SerialMonitorWindow) (now : datetime)
    (timeout_info : str) : SerialMonitorWindow :=
  set_lists w
    (record_list w ++ [timeout_item (strftime now) timeout_info])
    (data_list w).

(** What reaches the window: the clicks and edits of the user, the refresh
    timer, the three signals of the thread and the closing of the window. *)
Inductive gui_event :=
| start_clicked (isRunning : bool)   (* [start_btn.clicked] *)
| clear_clicked                      (* [clear_btn.clicked] *)
| refresh (ports : list str)         (* [refresh_btn.clicked], [refresh_timer.timeout] *)
| port_chosen (i : nat)              (* the user picks an entry of the combo box *)
| baud_typed (t : str)               (* the user edits the baud rate *)
| timeout_typed (t : str)            (* the user edits the timeout *)
| data_signal (now : datetime) (data : str)
| timeout_signal (now : datetime) (info : str)
| error_signal (msg : str)
| close_event.

(** The slot each event is connected to. *)
Definition handle (st : store * SerialMonitorWindow) (ev : gui_event)
  : store * SerialMonitorWindow * list dialog :=
  let (h, w) := st in
  match ev with
  | start_clicked isRunning => toggle_monitoring h w isRunning
  | clear_clicked => (h, clear_records w, [])
  | refresh ports => (h, refresh_ports w ports, [])
  | port_chosen i =>
      match nth_error (port_combo (core w)) i with
      | Some p =>
          (h, set_core w (set_ports (core w) (port_combo (core w)) p), [])
      | None => (h, w, [])
      end
  | baud_typed t => (h, set_core w (set_baud_edit (core w) t), [])
  | timeout_typed t => (h, set_core w (set_timeout_edit (core w) t), [])
  | data_signal now data => (h, on_data_received w now data, [])
  | timeout_signal now info => (h, on_timeout_occurred w now info, [])
  | error_signal msg => on_error_occurred h w msg
  | close_event => (closeEvent h w, [])
  end.

Fixpoint handle_all (st : store * SerialMonitorWindow) (evs : list gui_event)
  : store * SerialMonitorWindow :=
  match evs with
  | [] => st
  | ev :: evs' => handle_all (fst (handle st ev)) evs'
  end.

(** The entries the data and timeout signals among [evs] add to the two
    lists, in the order of arrival. *)
Definition data_items (evs : list gui_event) : list item :=
  flat_map (fun ev => match ev with
                      | data_signal now data =>
                          [data_item (strftime_hms now) data]
                      | _ => []
                      end) evs.

Definition timeout_items (evs : list gui_event) : list item :=
  flat_map (fun ev => match ev with
                      | timeout_signal now info =>
                          [timeout_item (strftime now) info]
                      | _ => []
                      end) evs.

End Slots.

Definition is_clear (ev : gui_event) : bool :=
  match ev with clear_clicked => true | _ => false end.

(** The last [n] elements of a list. *)
Definition lastn {A : Type} (n : nat) (l : list A) : list A :=
  skipn (length l - n) l.

Definition start_button : widget :=
  {| w_text := start_text; w_style := StyleSheet.green_button |}.
Definition stop_button : widget :=
  {| w_text := stop_text; w_style := StyleSheet.red_button |}.

(** What every state of the window satisfies: the button says whether a
    thread is being monitored, the monitored thread exists in the store,
    the data list holds at most 100 entries, and the selected port is one
    of the listed ones (none when nothing is listed). *)
Definition tidy (st : store * SerialMonitorWindow) : Prop :=
  let (h, w) := st in
  match monitor_thread (core w) with
  | Some r => (r < length h)%nat /\ start_btn w = stop_button
  | None => start_btn w = start_button
  end /\
  (length (data_list w) <= 100)%nat /\
  match port_combo (core w) with
  | [] => port_current (core w) = []
  | _ :: _ => In (port_current (core w)) (port_combo (core w))
  end.

End Window.

(** ** Sample inputs

    Concrete threads, ticks and sessions on which the model is evaluated.
    Times are in microseconds; the sample thread watches "COM3" at 9600
    baud with a timeout of five seconds. *)

(** A formatter and an integer parser to run the model with: the first
    renders every time as the empty text, the second reads a non-empty
    sequence of ASCII digits. *)
Definition plain_strftime (t : datetime) : str := [].

Fixpoint digits (s : str) (acc : Z) : option Z :=
  match s with
  | [] => Some acc
  | c :: s' =>
      if ((48 <=? c) && (c <=? 57))%N
      then digits s' (10 * acc + Z.of_N (c - 48))
      else None
  end.

Definition decimal_int (s : str) : option Z :=
  match s with [] => None | _ :: _ => digits s 0 end.

Definition COM3 : str := [67; 79; 77; 51]%N.
Definition ping : str := [112; 105; 110; 103]%N.
Definition ping_line : str := [112; 105; 110; 103; 13; 10]%N.
Definition boom : str := [98; 111; 111; 109]%N.

Definition sample_thread : SerialMonitorThread :=
  SerialMonitorThread_init COM3 9600 5.

Definition sample_conn : Serial :=
  {| ser_port := COM3; ser_baudrate := 9600; ser_timeout := 1;
     is_open := true |}.

(** Nothing waiting; the timeout check reads the clock at [t]. *)
Definition quiet_tick (t : datetime) : tick :=
  {| stop_called := false; in_waiting := Returns 0; readline := Returns [];
     now_recv := t; now_check := t |}.

(** [data] is read at [t_recv]; the timeout check follows at [t_check]. *)
Definition line_tick (data : str) (t_recv t_check : datetime) : tick :=
  {| stop_called := false; in_waiting := Returns (Z.of_nat (length data));
     readline := Returns data; now_recv := t_recv; now_check := t_check |}.

(** A byte is waiting but [readline] raises. *)
Definition failing_tick (msg : str) (t : datetime) : tick :=
  {| stop_called := false; in_waiting := Returns 1;
     readline := Raises (Exception msg); now_recv := t; now_check := t |}.

(** [in_waiting] itself raises. *)
Definition unplugged_tick (msg : str) (t : datetime) : tick :=
  {| stop_called := false; in_waiting := Raises (Exception msg);
     readline := Raises (Exception msg); now_recv := t; now_check := t |}.

(** [stop] was called before the loop test. *)
Definition stop_tick (t : datetime) : tick :=
  {| stop_called := true; in_waiting := Returns 0; readline := Returns [];
     now_recv := t; now_check := t |}.

Definition seconds (l : list Z) : list datetime := map microseconds l.

(** Thirteen seconds of silence, checked once a second. *)
Definition silent_session : session :=
  {| open_port := Returns tt; now_start := 0;
     ticks := map quiet_tick (seconds [1; 2; 3; 4; 5; 6; 7; 8; 9; 10; 11; 12; 13]) |}.

(** A line at 2 s and another at 6 s, observed until 9 s. *)
Definition steady_session : session :=
  {| open_port := Returns tt; now_start := 0;
     ticks := [line_tick ping_line 2000000 2000050; quiet_tick 4000000;
               line_tick ping_line 6000000 6000050; quiet_tick 9000000] |}.

(** Two reads in a row fail and nobody has called [stop] yet. *)
Definition two_failed_reads : session :=
  {| open_port := Returns tt; now_start := 0;
     ticks := [failing_tick boom 100000; failing_tick boom 200000] |}.

Definition refused_session : session :=
  {| open_port := Raises (Exception boom); now_start := 0; ticks := [] |}.

Definition stopped_session : session :=
  {| open_port := Returns tt; now_start := 0;
     ticks := [quiet_tick 100000; stop_tick 200000] |}.

Definition unplugged_session : session :=
  {| open_port := Returns tt; now_start := 0;
     ticks := [quiet_tick 100000; unplugged_tick boom 200000] |}.

(** A window that has just stopped a session which was about to time out,
    with the form still filled in. *)
Definition stale_thread : SerialMonitorThread :=
  set_last_received_time (opened sample_thread 0) 1000.

Definition sample_app : SerialMonitorApp :=
  {| monitor_thread := Some 0%nat; port_combo := [COM3]; port_current := COM3;
     baud_edit := [57; 54; 48; 48]%N; timeout_edit := [53]%N |}.

Definition after_stop : store * SerialMonitorApp :=
  stop_monitoring [stale_thread] sample_app.

(** An integer formatter to run the window with, a session with a
    negative timeout, a window that has just started monitoring with the
    default form, and a few events. *)
Definition plain_str_int (z : Z) : str := [].

Definition hasty_thread : SerialMonitorThread :=
  SerialMonitorThread_init COM3 9600 (-1).

Definition monitoring_window : store * Window.SerialMonitorWindow :=
  fst (Window.start_monitoring decimal_int plain_str_int []
         (Window.init [COM3])).

Definition sample_events : list Window.gui_event :=
  [Window.data_signal 1000000 ping; Window.timeout_signal 7000000 ping;
   Window.refresh [COM3]; Window.data_signal 8000000 ping].



Definition short_thread : SerialMonitorThread :=
  SerialMonitorThread_init COM3 9600 1.

Definition slow_tick : tick := line_tick ping_line 2000000 3500000.

Definition looping_window : store * Window.SerialMonitorWindow :=
  ([opened (SerialMonitorThread_init COM3 9600 600) 0],
   snd monitoring_window).

(** * Properties *)

(** ** Text *)

Lemma lstrip_head (s : str) (c : char) (t : str) :
  lstrip s = c :: t -> isspace c = false.
Proof.
  induction s as [|a s IH]; simpl; [discriminate|].
  destruct (isspace a) eqn:Ha; [exact IH|].
  intros H; injection H as <- _; exact Ha.
Qed.

Lemma lstrip_blank (s : str) : lstrip s = [] <-> forallb isspace s = true.
Proof.
  induction s as [|a s IH]; simpl; [tauto|].
  destruct (isspace a); simpl; [exact IH|].
  split; discriminate.
Qed.

Lemma forallb_rev {A : Type} (f : A -> bool) (l : list A) :
  forallb f (rev l) = forallb f l.
Proof.
  induction l as [|a l IH]; simpl; [reflexivity|].
  rewrite forallb_app, IH; simpl.
  rewrite andb_true_r; apply andb_comm.
Qed.

(** [strip] returns the empty text exactly on empty or whitespace-only text. *)
Lemma strip_blank (s : str) : strip s = [] <-> forallb isspace s = true.
Proof.
  unfold strip, rstrip; split.
  - intros H.
    assert (H1 : lstrip (rev (lstrip s)) = []).
    { rewrite <- (rev_involutive (lstrip (rev (lstrip s)))), H; reflexivity. }
    apply lstrip_blank in H1; rewrite forallb_rev in H1.
    destruct (lstrip s) as [|c t] eqn:E; [apply lstrip_blank; exact E|].
    apply lstrip_head in E; simpl in H1; rewrite E in H1; discriminate.
  - intros H; apply lstrip_blank in H; rewrite H; reflexivity.
Qed.

Lemma strip_nonblank (s : str) : strip s <> [] <-> forallb isspace s = false.
Proof.
  rewrite strip_blank; destruct (forallb isspace s); split; congruence.
Qed.

(** ** The comparison of the elapsed time with the timeout *)

Lemma round_half_even_cases (N D : Z) :
  round_half_even N D = N / D \/ round_half_even N D = N / D + 1.
Proof.
  unfold round_half_even.
  destruct (2 * (N mod D) ?= D); [destruct (Z.even (N / D))| |]; auto.
Qed.

(** Rounding does not cross an integer. *)
Lemma round_half_even_le (N D K : Z) :
  0 < D -> N <= K * D -> round_half_even N D <= K.
Proof.
  intros HD HN.
  pose proof (Z.div_mod N D ltac:(lia)) as Hdm.
  pose proof (Z.mod_pos_bound N D HD) as Hr.
  assert (Hk : N / D <= K) by nia.
  destruct (Z.eq_dec (N / D) K) as [He|Hne].
  - assert (H0 : N mod D = 0) by nia.
    unfold round_half_even; rewrite H0.
    destruct (Z.compare_spec (2 * 0) D); lia.
  - destruct (round_half_even_cases N D); lia.
Qed.

Lemma round_half_even_ge (N D K : Z) :
  0 < D -> K * D <= N -> K <= round_half_even N D.
Proof.
  intros HD HN.
  pose proof (Z.div_mod N D ltac:(lia)) as Hdm.
  pose proof (Z.mod_pos_bound N D HD) as Hr.
  assert (Hk : K <= N / D) by nia.
  destruct (round_half_even_cases N D); lia.
Qed.

(** Beyond the midpoint above [K] the result is above [K]; short of the
    midpoint below [K] it is below [K]. *)
Lemma round_half_even_above (N D K : Z) :
  0 < D -> (2 * K + 1) * D < 2 * N -> K + 1 <= round_half_even N D.
Proof.
  intros HD HN.
  pose proof (Z.div_mod N D ltac:(lia)) as Hdm.
  pose proof (Z.mod_pos_bound N D HD) as Hr.
  assert (Hk : K <= N / D) by nia.
  destruct (Z.eq_dec (N / D) K) as [He|Hne].
  - unfold round_half_even.
    destruct (Z.compare_spec (2 * (N mod D)) D); nia.
  - destruct (round_half_even_cases N D); lia.
Qed.

Lemma round_half_even_below (N D K : Z) :
  0 < D -> 2 * N < (2 * K - 1) * D -> round_half_even N D <= K - 1.
Proof.
  intros HD HN.
  pose proof (Z.div_mod N D ltac:(lia)) as Hdm.
  pose proof (Z.mod_pos_bound N D HD) as Hr.
  assert (Hk : N / D <= K - 1) by nia.
  destruct (Z.eq_dec (N / D) (K - 1)) as [He|Hne].
  - unfold round_half_even.
    destruct (Z.compare_spec (2 * (N mod D)) D); nia.
  - destruct (round_half_even_cases N D); lia.
Qed.

(** Within the range of [datetime], the shift is at least 13 and the
    scaled quotient has reached [2^52]. *)
Lemma binary64_shift (a : Z) :
  0 < a <= max_timedelta ->
  13 <= snd (binary64_of_microseconds a) /\
  2 ^ 52 * 1000000 <= a * 2 ^ snd (binary64_of_microseconds a).
Proof.
  intros [Ha Hmax].
  assert (Hl : 0 <= Z.log2 a <= 58).
  { split; [apply Z.log2_nonneg|].
    change 58 with (Z.log2 max_timedelta).
    apply Z.log2_le_mono; exact Hmax. }
  pose proof (Z.log2_spec a Ha) as [Hlo _].
  unfold binary64_of_microseconds; cbv zeta.
  change (Z.log2 1000000) with 19.
  set (l := Z.log2 a) in *.
  destruct (Z.ltb_spec (a * 2 ^ (52 - (l - 19))) (2 ^ 52 * 1000000))
    as [Hlt|Hge]; cbn [snd].
  - split; [lia|].
    assert (Hp : 2 ^ l * 2 ^ (52 - (l - 19) + 1) = 2 ^ 72).
    { rewrite <- Z.pow_add_r by lia. f_equal; lia. }
    assert (Hpos : 0 < 2 ^ (52 - (l - 19) + 1))
      by (apply Z.pow_pos_nonneg; lia).
    assert (H72 : 2 ^ 52 * 1000000 <= 2 ^ 72) by (vm_compute; discriminate).
    nia.
  - split; [lia|exact Hge].
Qed.

Lemma binary64_mantissa (a : Z) :
  0 < a <= max_timedelta ->
  2 ^ 52 <= fst (binary64_of_microseconds a).
Proof.
  intros Ha. destruct (binary64_shift a Ha) as [_ H].
  unfold binary64_of_microseconds in *; cbv zeta in *; cbn [fst snd] in *.
  apply round_half_even_ge; [lia|exact H].
Qed.

(** No more than the timeout: the check stays quiet, whatever the
    timeout. *)
Lemma exceeds_quiet (td : timedelta) (T : Z) :
  td <= microseconds T -> exceeds td T = false.
Proof.
  unfold exceeds, microseconds; intros H.
  destruct (Z.abs td <=? max_timedelta); [|apply Z.ltb_ge; exact H].
  unfold total_seconds_gt.
  destruct (Z.compare_spec td 0) as [->|Hneg|Hpos].
  - apply Z.ltb_ge; lia.
  - unfold binary64_of_microseconds; cbv zeta.
    set (s := if _ <? _ then _ else _).
    assert (HP : 0 <= 2 ^ s) by (apply Z.pow_nonneg; lia).
    apply Z.ltb_ge, round_half_even_ge; [lia|nia].
  - unfold binary64_of_microseconds; cbv zeta.
    set (s := if _ <? _ then _ else _).
    assert (HP : 0 <= 2 ^ s) by (apply Z.pow_nonneg; lia).
    apply Z.ltb_ge, round_half_even_le; [lia|nia].
Qed.

(** More than a timeout below [2^34] seconds: the check fires. *)
Lemma exceeds_fire (td : timedelta) (T : Z) :
  - 2 ^ 34 < T < 2 ^ 34 ->
  microseconds T < td -> exceeds td T = true.
Proof.
  unfold exceeds, microseconds; intros HT H.
  destruct (Z.leb_spec (Z.abs td) max_timedelta) as [Hr|Hr];
    [|apply Z.ltb_lt; exact H].
  unfold total_seconds_gt.
  destruct (Z.compare_spec td 0) as [->|Hneg|Hpos].
  - apply Z.ltb_lt; lia.
  - assert (Ha : 0 < - td <= max_timedelta) by lia.
    destruct (binary64_shift _ Ha) as [Hs Hq].
    destruct (binary64_of_microseconds (- td)) as [m s] eqn:E.
    assert (Hm : m = round_half_even (- td * 2 ^ s) 1000000).
    { revert E; unfold binary64_of_microseconds; cbv zeta.
      intros [= <- <-]; reflexivity. }
    cbn [fst snd] in Hs, Hq; apply Z.ltb_lt.
    assert (HP : 0 < 2 ^ s) by (apply Z.pow_pos_nonneg; lia).
    destruct (Z.le_gt_cases 19 s) as [Hbig|Hsmall].
    + assert (H19 : 2 ^ 19 <= 2 ^ s) by (apply Z.pow_le_mono_r; lia).
      change (2 ^ 19) with 524288 in H19.
      assert (Hb : m <= - T * 2 ^ s - 1);
        [rewrite Hm; apply round_half_even_below; [lia|nia]|lia].
    + assert (H18 : 2 ^ s <= 2 ^ 18) by (apply Z.pow_le_mono_r; lia).
      change (2 ^ 18) with 262144 in H18.
      change (2 ^ 52) with 4503599627370496 in Hq.
      change (2 ^ 34) with 17179869184 in HT.
      nia.
  - assert (Ha : 0 < td <= max_timedelta) by lia.
    destruct (binary64_shift _ Ha) as [Hs Hq].
    pose proof (binary64_mantissa _ Ha) as Hm52.
    destruct (binary64_of_microseconds td) as [m s] eqn:E.
    assert (Hm : m = round_half_even (td * 2 ^ s) 1000000).
    { revert E; unfold binary64_of_microseconds; cbv zeta.
      intros [= <- <-]; reflexivity. }
    cbn [fst snd] in Hs, Hq, Hm52; apply Z.ltb_lt.
    assert (HP : 0 < 2 ^ s) by (apply Z.pow_pos_nonneg; lia).
    change (2 ^ 52) with 4503599627370496 in Hq, Hm52.
    change (2 ^ 34) with 17179869184 in HT.
    destruct (Z.lt_ge_cases T 0) as [HTn|HTp]; [nia|].
    destruct (Z.le_gt_cases 19 s) as [Hbig|Hsmall].
    + assert (H19 : 2 ^ 19 <= 2 ^ s) by (apply Z.pow_le_mono_r; lia).
      change (2 ^ 19) with 524288 in H19.
      assert (Hb : T * 2 ^ s + 1 <= m);
        [rewrite Hm; apply round_half_even_above; [lia|nia]|lia].
    + assert (H18 : 2 ^ s <= 2 ^ 18) by (apply Z.pow_le_mono_r; lia).
      change (2 ^ 18) with 262144 in H18.
      nia.
Qed.

(** A negative timeout and a clock that has not gone back: the check
    fires. *)
Lemma exceeds_fire_negative (td : timedelta) (T : Z) :
  T < 0 -> 0 <= td -> exceeds td T = true.
Proof.
  unfold exceeds, microseconds; intros HT H.
  destruct (Z.leb_spec (Z.abs td) max_timedelta) as [Hr|Hr];
    [|apply Z.ltb_lt; lia].
  unfold total_seconds_gt.
  destruct (Z.compare_spec td 0) as [->|Hneg|Hpos]; [apply Z.ltb_lt| |]; try lia.
  assert (Ha : 0 < td <= max_timedelta) by lia.
  destruct (binary64_shift _ Ha) as [Hs _].
  pose proof (binary64_mantissa _ Ha) as Hm52.
  destruct (binary64_of_microseconds td) as [m s].
  cbn [fst snd] in Hs, Hm52; apply Z.ltb_lt.
  assert (HP : 0 < 2 ^ s) by (apply Z.pow_pos_nonneg; lia).
  change (2 ^ 52) with 4503599627370496 in Hm52. nia.
Qed.

(** ** The loop body, block by block *)

Lemma timeouts_app (a b : list signal) :
  timeouts (a ++ b) = timeouts a ++ timeouts b.
Proof. apply filter_app. Qed.

Lemma datas_app (a b : list signal) : datas (a ++ b) = datas a ++ datas b.
Proof. apply filter_app. Qed.

Lemma errors_app (a b : list signal) : errors (a ++ b) = errors a ++ errors b.
Proof. apply filter_app. Qed.

(** Case analysis of [read_block]: what it emits and what it assigns. *)
Lemma read_block_cases (th : SerialMonitorThread) (e : tick)
    (evs : list signal) (th1 : SerialMonitorThread) :
  read_block th e = Returns (evs, th1) ->
  (evs = [] /\ th1 = th) \/
  (exists ex, readline e = Raises ex /\
     evs = [error_occurred (read_error_prefix ++ str_exc ex)] /\ th1 = th) \/
  (exists line, delivers e = Some line /\
     evs = [data_received line] /\
     th1 = set_last_received_time th (now_recv e)).
Proof.
  unfold read_block, delivers.
  destruct (serial_conn th); [|intros [= <- <-]; auto].
  destruct (in_waiting e) as [n|ex]; [|discriminate].
  destruct (0 <? n); [|intros [= <- <-]; auto].
  destruct (readline e) as [data|ex].
  - destruct (strip data) eqn:E; intros [= <- <-]; [auto|].
    right; right; eexists; repeat split.
  - intros [= <- <-]; right; left; eauto.
Qed.

Lemma read_block_timeouts th e evs th1 :
  read_block th e = Returns (evs, th1) -> timeouts evs = [].
Proof.
  intros H; apply read_block_cases in H.
  destruct H as [[-> _]|[(ex & _ & -> & _)|(l & _ & -> & _)]]; reflexivity.
Qed.

Lemma read_block_fields th e evs th1 :
  read_block th e = Returns (evs, th1) ->
  timeout_seconds th1 = timeout_seconds th /\
  is_running th1 = is_running th /\
  serial_conn th1 = serial_conn th.
Proof.
  intros H; apply read_block_cases in H.
  destruct H as [[_ ->]|[(ex & _ & _ & ->)|(l & _ & _ & ->)]]; auto.
Qed.

Lemma last_cons {A : Type} (l : list A) : forall a d,
  last (a :: l) d = last l a.
Proof.
  induction l as [|b l IH]; intros a d; [reflexivity|].
  change (last (a :: b :: l) d) with (last (b :: l) d).
  rewrite !IH; reflexivity.
Qed.

Section Watchdog.

Variable strftime : datetime -> str.

Local Abbreviation timeout_block := (timeout_block strftime).
Local Abbreviation loop_body := (loop_body strftime).
Local Abbreviation while_is_running := (while_is_running strftime).
Local Abbreviation run := (run strftime).
Local Abbreviation fired := (fired strftime).

Lemma timeout_block_fields th e :
  timeout_seconds (snd (timeout_block th e)) = timeout_seconds th /\
  is_running (snd (timeout_block th e)) = is_running th /\
  serial_conn (snd (timeout_block th e)) = serial_conn th.
Proof.
  unfold timeout_block.
  destruct (last_received_time th); [|auto].
  simpl; destruct (exceeds _ _); auto.
Qed.

(** The timeout check when the baseline is [last]: it fires on a strictly
    larger elapsed time, for a timeout below [2^34] seconds, and leaves
    everything alone on an elapsed time up to the timeout. *)
Lemma timeout_block_fire th e last :
  last_received_time th = Some last ->
  - 2 ^ 34 < timeout_seconds th < 2 ^ 34 ->
  microseconds (timeout_seconds th) < now_check e - last ->
  timeout_block th e =
    ([timeout_occurred (last_data_prefix ++ strftime last)],
     set_last_received_time th (now_check e)).
Proof.
  intros Hl HT Hd; unfold timeout_block; rewrite Hl; simpl.
  rewrite (exceeds_fire _ _ HT Hd); reflexivity.
Qed.

Lemma timeout_block_fire_negative th e last :
  last_received_time th = Some last ->
  timeout_seconds th < 0 ->
  last <= now_check e ->
  timeout_block th e =
    ([timeout_occurred (last_data_prefix ++ strftime last)],
     set_last_received_time th (now_check e)).
Proof.
  intros Hl HT Hd; unfold timeout_block; rewrite Hl; simpl.
  rewrite (exceeds_fire_negative _ _ HT) by lia; reflexivity.
Qed.

Lemma timeout_block_quiet th e last :
  last_received_time th = Some last ->
  now_check e - last <= microseconds (timeout_seconds th) ->
  timeout_block th e = ([], th).
Proof.
  intros Hl Hd; unfold timeout_block; rewrite Hl; simpl.
  rewrite (exceeds_quiet _ _ Hd); reflexivity.
Qed.

Lemma timeout_block_none th e :
  last_received_time th = None -> timeout_block th e = ([], th).
Proof. intros Hl; unfold timeout_block; rewrite Hl; reflexivity. Qed.

Lemma loop_body_unfold th e evs th1 :
  read_block th e = Returns (evs, th1) ->
  loop_body th e =
    Returns (evs ++ fst (timeout_block th1 e), snd (timeout_block th1 e)).
Proof.
  intros H; unfold loop_body; rewrite H.
  destruct (timeout_block th1 e); reflexivity.
Qed.

Lemma loop_body_inv th e evs th2 :
  loop_body th e = Returns (evs, th2) ->
  exists evs1 th1,
    read_block th e = Returns (evs1, th1) /\
    evs = evs1 ++ fst (timeout_block th1 e) /\
    th2 = snd (timeout_block th1 e).
Proof.
  unfold loop_body.
  destruct (read_block th e) as [[evs1 th1]|ex]; [|discriminate].
  destruct (timeout_block th1 e) as [evs2 th2'] eqn:E.
  intros [= <- <-]; exists evs1, th1; rewrite E; auto.
Qed.

(** ** The loop *)

Lemma while_is_running_step th e env evs th1 :
  let th0 := if stop_called e then stop th else th in
  is_running th0 = true ->
  loop_body th0 e = Returns (evs, th1) ->
  while_is_running th (e :: env) =
    (evs ++ events (while_is_running th1 env),
     snd (fst (while_is_running th1 env)),
     snd (while_is_running th1 env)).
Proof.
  intros th0 Hr Hb; simpl; fold th0; rewrite Hr, Hb.
  destruct (while_is_running th1 env) as [[evs' th2] ex]; reflexivity.
Qed.

Lemma while_is_running_stop th e env :
  let th0 := if stop_called e then stop th else th in
  is_running th0 = false ->
  while_is_running th (e :: env) = ([], th0, Stopped).
Proof. intros th0 Hr; simpl; fold th0; rewrite Hr; reflexivity. Qed.

Lemma while_is_running_raise th e env ex :
  let th0 := if stop_called e then stop th else th in
  is_running th0 = true ->
  loop_body th0 e = Raises ex ->
  while_is_running th (e :: env) = ([], th0, Raised ex).
Proof. intros th0 Hr Hb; simpl; fold th0; rewrite Hr, Hb; reflexivity. Qed.

(** The three ways an iteration can go, for case analysis in the proofs
    about whole runs. *)
Lemma while_is_running_cases th e env :
  let th0 := if stop_called e then stop th else th in
  last_received_time th0 = last_received_time th /\
  timeout_seconds th0 = timeout_seconds th /\
  serial_conn th0 = serial_conn th /\
  (while_is_running th (e :: env) = ([], th0, Stopped) \/
   (exists ex, while_is_running th (e :: env) = ([], th0, Raised ex)) \/
   (exists evs th1,
      is_running th0 = true /\
      loop_body th0 e = Returns (evs, th1) /\
      while_is_running th (e :: env) =
        (evs ++ events (while_is_running th1 env),
         snd (fst (while_is_running th1 env)),
         snd (while_is_running th1 env)))).
Proof.
  intros th0.
  assert (Hf : last_received_time th0 = last_received_time th /\
               timeout_seconds th0 = timeout_seconds th /\
               serial_conn th0 = serial_conn th).
  { unfold th0; destruct (stop_called e); auto. }
  destruct Hf as (H1 & H2 & H3); repeat split; try assumption.
  destruct (is_running th0) eqn:Hr.
  - destruct (loop_body th0 e) as [[evs th1]|ex] eqn:Hb.
    + right; right; exists evs, th1; repeat split.
      apply while_is_running_step; assumption.
    + right; left; exists ex; apply while_is_running_raise; assumption.
  - left; apply while_is_running_stop; assumption.
Qed.

(** After a reading [c] became the baseline, no timeout is signalled as long
    as every later reading stays within one idle period of [c]. *)
Lemma quiet_window (env : list tick) : forall th c,
  (forall l, last_received_time th = Some l -> c <= l) ->
  Forall (fun t => Forall (fun r =>
            c <= r <= c + microseconds (timeout_seconds th)) (readings t)) env ->
  timeouts (events (while_is_running th env)) = [].
Proof.
  induction env as [|e env IH]; intros th c Hl Henv; [reflexivity|].
  inversion Henv as [|? ? He Henv']; subst.
  destruct (while_is_running_cases th e env) as (H1 & H2 & H3 & Hc).
  set (th0 := if stop_called e then stop th else th) in *.
  destruct Hc as [->|[(ex & ->)|(evs & th1 & Hr & Hb & ->)]];
    [reflexivity|reflexivity|].
  apply loop_body_inv in Hb; destruct Hb as (evs1 & th1' & Hrb & -> & ->).
  pose proof (read_block_timeouts _ _ _ _ Hrb) as Ht.
  pose proof (read_block_fields _ _ _ _ Hrb) as (Hts & _ & _).
  assert (Hl1 : forall l, last_received_time th1' = Some l -> c <= l).
  { apply read_block_cases in Hrb.
    destruct Hrb as [[_ ->]|[(ex & _ & _ & ->)|(line & Hd & _ & ->)]];
      try (rewrite H1; exact Hl).
    simpl; intros l [= <-]. unfold readings in He; rewrite Hd in He.
    inversion He; subst; lia. }
  assert (Hq : timeout_block th1' e = ([], th1')).
  { destruct (last_received_time th1') as [l|] eqn:El;
      [|apply timeout_block_none; exact El].
    apply (timeout_block_quiet _ _ l El).
    specialize (Hl1 l eq_refl).
    assert (Hc : c <= now_check e <= c + microseconds (timeout_seconds th)).
    { unfold readings in He; destruct (delivers e).
      - inversion He as [|? ? _ He']; inversion He'; subst; assumption.
      - inversion He; subst; assumption. }
    rewrite Hts, H2; lia. }
  rewrite Hq; simpl. unfold events; simpl.
  rewrite !timeouts_app, Ht; simpl.
  apply (IH th1' c Hl1). rewrite Hts, H2; exact Henv'.
Qed.

(** ** Single iterations *)


(** C2: the comparison is strict.  A tick whose timeout check finds exactly
    [timeout_seconds] elapsed emits no [timeout_occurred] and keeps the
    baseline; whenever a tick does emit one, strictly more had elapsed. *)
Theorem timeout_comparison_is_strict
    (th : SerialMonitorThread) (e : tick)
    (evs1 : list signal) (th1 : SerialMonitorThread) (last : datetime) :
  read_block th e = Returns (evs1, th1) ->
  last_received_time th1 = Some last ->
  (now_check e - last = microseconds (timeout_seconds th) ->
   loop_body th e = Returns (evs1, th1) /\ timeouts evs1 = []) /\
  (forall evs th2,
     loop_body th e = Returns (evs, th2) ->
     timeouts evs <> [] ->
     microseconds (timeout_seconds th) < now_check e - last).
Proof.
  intros Hrb Hl.
  pose proof (read_block_fields _ _ _ _ Hrb) as (Hts & _ & _).
  pose proof (read_block_timeouts _ _ _ _ Hrb) as Ht.
  split.
  - intros Heq. split; [|exact Ht].
    rewrite (loop_body_unfold _ _ _ _ Hrb).
    rewrite (timeout_block_quiet th1 e last Hl) by (rewrite Hts; lia).
    simpl; rewrite app_nil_r; reflexivity.
  - intros evs th2 Hb Hne.
    rewrite (loop_body_unfold _ _ _ _ Hrb) in Hb; injection Hb as <- <-.
    destruct (Z.lt_ge_cases (microseconds (timeout_seconds th))
                            (now_check e - last)) as [Hlt|Hge]; [exact Hlt|].
    rewrite (timeout_block_quiet th1 e last Hl) in Hne by (rewrite Hts; lia).
    simpl in Hne; rewrite app_nil_r in Hne; contradiction.
Qed.

(** C3: when [readline] returns a line that is not blank, the read updates
    [last_received_time] to the time of receipt and the tick emits exactly
    one [data_received], carrying the stripped text; when the line is empty
    or consists of whitespace only, the read emits nothing and changes
    nothing. *)
Theorem line_updates_baseline_and_is_signalled_once
    (th : SerialMonitorThread) (c : Serial) (e : tick) (n : Z) (data : str) :
  serial_conn th = Some c ->
  in_waiting e = Returns n -> 0 < n ->
  readline e = Returns data ->
  (forallb isspace data = false ->
   read_block th e =
     Returns ([data_received (strip data)],
              set_last_received_time th (now_recv e)) /\
   last_received_time (set_last_received_time th (now_recv e))
     = Some (now_recv e) /\
   exists evs th2,
     loop_body th e = Returns (evs, th2) /\
     datas evs = [data_received (strip data)]) /\
  (forallb isspace data = true ->
   read_block th e = Returns ([], th)).
Proof.
  intros Hc Hw Hn Hr.
  assert (Hpos : (0 <? n) = true) by (apply Z.ltb_lt; exact Hn).
  split.
  - intros Hs; apply strip_nonblank in Hs.
    assert (Hrb : read_block th e =
                  Returns ([data_received (strip data)],
                           set_last_received_time th (now_recv e))).
    { unfold read_block; rewrite Hc, Hw, Hpos, Hr.
      destruct (strip data); [contradiction|reflexivity]. }
    repeat split; [exact Hrb|].
    eexists; eexists; split; [apply (loop_body_unfold _ _ _ _ Hrb)|].
    rewrite datas_app; unfold timeout_block; simpl.
    destruct (exceeds _ _); reflexivity.
  - intros Hs; apply strip_blank in Hs.
    unfold read_block; rewrite Hc, Hw, Hpos, Hr, Hs; reflexivity.
Qed.

(** C10, as the code has it: in a tick that hands over a line, the timeout
    check comes after the receipt and measures from it.  When the time from
    the receipt to the check is at most [timeout_seconds], the tick emits
    the [data_received] alone; when it is more, for timeouts below [2^34]
    seconds, the tick emits a [timeout_occurred] as well, after the
    [data_received] and formatted from the receipt time of that very line,
    and the time of the check becomes the baseline. *)
Theorem data_tick_times_out_only_when_slow
    (th : SerialMonitorThread) (c : Serial) (e : tick) (line : str) :
  serial_conn th = Some c ->
  delivers e = Some line ->
  (now_check e - now_recv e <= microseconds (timeout_seconds th) ->
   loop_body th e =
     Returns ([data_received line],
              set_last_received_time th (now_recv e))) /\
  (- 2 ^ 34 < timeout_seconds th < 2 ^ 34 ->
   microseconds (timeout_seconds th) < now_check e - now_recv e ->
   loop_body th e =
     Returns ([data_received line; fired (now_recv e)],
              set_last_received_time
                (set_last_received_time th (now_recv e)) (now_check e))).
Proof.
  intros Hc Hd.
  assert (Hrb : read_block th e =
                Returns ([data_received line],
                         set_last_received_time th (now_recv e))).
  { revert Hd; unfold read_block, delivers; rewrite Hc.
    destruct (in_waiting e) as [n|]; [|discriminate].
    destruct (readline e) as [data|]; [|discriminate].
    destruct (0 <? n); [|discriminate].
    destruct (strip data); [discriminate|].
    intros [= <-]; reflexivity. }
  split.
  - intros Hq; rewrite (loop_body_unfold _ _ _ _ Hrb).
    rewrite (timeout_block_quiet _ e (now_recv e)); [reflexivity..|exact Hq].
  - intros HT Hf; rewrite (loop_body_unfold _ _ _ _ Hrb).
    rewrite (timeout_block_fire _ e (now_recv e));
      [reflexivity|reflexivity|exact HT|exact Hf].
Qed.

(** ** Errors and termination *)

Lemma nth_error_update (h : store) : forall r f,
  nth_error (update h r f) r = option_map f (nth_error h r).
Proof.
  induction h as [|o h IH]; intros [|r] f; simpl; auto.
Qed.

Lemma finally_block_released th : released (finally_block th).
Proof.
  unfold finally_block, released.
  destruct (serial_conn th) as [c|] eqn:E; [|rewrite E; exact I].
  destruct (is_open c) eqn:Eo; simpl; [reflexivity|].
  rewrite E; exact Eo.
Qed.

Lemma finally_block_noop th : released th -> finally_block th = th.
Proof.
  unfold finally_block, released.
  destruct (serial_conn th) as [c|]; [|reflexivity].
  intros ->; reflexivity.
Qed.

(** [run] has finished exactly when the port could not be opened or the
    loop was left, by [stop] or by an exception. *)
Lemma run_finished_iff th s :
  snd (run th s) = Finished <->
  (exists ex, open_port s = Raises ex) \/
  (exists u, open_port s = Returns u /\
     snd (while_is_running (opened th (now_start s)) (ticks s)) <> Exhausted).
Proof.
  unfold run.
  destruct (open_port s) as [u|ex].
  - destruct (while_is_running _ _) as [[evs th4] [| |ex]]; simpl; split.
    + discriminate.
    + intros [(ex & H)|(u' & _ & H)]; [discriminate|contradiction].
    + intros _; right; exists u; split; [reflexivity|discriminate].
    + reflexivity.
    + intros _; right; exists u; split; [reflexivity|discriminate].
    + reflexivity.
  - simpl; split; [intros _; left; eauto|reflexivity].
Qed.

(** C5: when the port cannot be opened, [run] emits exactly one
    [error_occurred] and returns without having assigned anything:
    [is_running] is still false and there is no connection object; the slot
    [on_error_occurred] then drops the window's reference to the thread. *)
Theorem open_failure_is_signalled_once
    (p : str) (b t : Z) (s : session) (ex : exception) :
  open_port s = Raises ex ->
  let th := SerialMonitorThread_init p b t in
  run th s =
    ([error_occurred (connect_error_prefix ++ str_exc ex)], th, Finished) /\
  is_running th = false /\
  serial_conn th = None /\
  released th /\
  forall h app msg,
    monitor_thread (snd (on_error_occurred h app msg)) = None.
Proof.
  intros Ho th; unfold run; rewrite Ho.
  repeat split.
  intros h app msg; unfold on_error_occurred, stop_monitoring.
  destruct (monitor_thread app) eqn:E; [reflexivity|exact E].
Qed.

(** C6: every way of leaving [run] (a failed open, the loop test finding
    [is_running] cleared by [stop], or an exception leaving the loop) ends
    with [run] finished and the thread holding no open connection; the
    release in [finally] does nothing on a connection that was never opened
    or is already closed, and doing it twice is doing it once. *)
Theorem connection_released_on_termination
    (th : SerialMonitorThread) (s : session) :
  (exists ex, open_port s = Raises ex) \/
  (exists u, open_port s = Returns u /\
     snd (while_is_running (opened th (now_start s)) (ticks s)) <> Exhausted) ->
  snd (run th s) = Finished /\
  released (snd (fst (run th s))) /\
  (forall th0, released th0 -> finally_block th0 = th0) /\
  (forall th0, finally_block (finally_block th0) = finally_block th0).
Proof.
  intros Hleft; apply run_finished_iff in Hleft.
  split; [exact Hleft|]. split; [|split].
  - revert Hleft; unfold run.
    destruct (open_port s); [|intros _; apply finally_block_released].
    destruct (while_is_running _ _) as [[evs th4] [| |ex]]; simpl;
      [discriminate|intros _; apply finally_block_released..].
  - exact finally_block_noop.
  - intros th0; apply finally_block_noop, finally_block_released.
Qed.

(** ** Whole runs *)

Lemma read_block_delivers th c e evs th1 :
  serial_conn th = Some c ->
  read_block th e = Returns (evs, th1) ->
  match delivers e with
  | Some line =>
      evs = [data_received line] /\
      th1 = set_last_received_time th (now_recv e)
  | None => th1 = th
  end.
Proof.
  intros Hc; unfold read_block, delivers; rewrite Hc.
  destruct (in_waiting e) as [n|ex]; [|discriminate].
  destruct (readline e) as [data|ex];
    destruct (0 <? n); try (intros [= <- <-]; reflexivity).
  destruct (strip data); intros [= <- <-]; auto.
Qed.

Lemma read_block_silent th c e :
  serial_conn th = Some c -> silent e ->
  read_block th e = Returns ([], th).
Proof.
  intros Hc Hs; unfold read_block; rewrite Hc, Hs; reflexivity.
Qed.



Lemma monotone_head (a : datetime) (l : list datetime) :
  monotone (a :: l) -> Forall (fun r => a <= r) l.
Proof.
  revert a; induction l as [|b l IH]; intros a H; constructor.
  - apply H.
  - destruct H as [Hab H]; apply IH in H.
    apply (Forall_impl _ (P := fun r => b <= r)); [intros; lia|exact H].
Qed.

Lemma monotone_tail (a : datetime) (l : list datetime) :
  monotone (a :: l) -> monotone l.
Proof. destruct l; [intros; exact I|intros [_ H]; exact H]. Qed.

Lemma monotone_last (l : list datetime) : forall d,
  monotone l -> Forall (fun r => r <= last l d) l.
Proof.
  induction l as [|a l IH]; intros d H; constructor.
  - rewrite last_cons. destruct l as [|b l']; [simpl; lia|].
    pose proof (monotone_head a _ H) as Hh.
    apply (proj1 (Forall_forall _ _) Hh).
    rewrite last_cons; clear. revert b; induction l' as [|x l' IH']; intros b.
    + left; reflexivity.
    + right; rewrite last_cons; apply IH'.
  - rewrite last_cons; apply IH, (monotone_tail a), H.
Qed.

Lemma receipts_in_clock (env : list tick) (r : datetime) :
  In r (receipts env) -> In r (clock env).
Proof.
  unfold receipts, clock; rewrite !in_flat_map.
  intros (e & He & Hr); exists e; split; [exact He|].
  unfold readings; destruct (delivers e); simpl in *; tauto.
Qed.

(** A reading that precedes the rest of the clock precedes the next receipt,
    or the end of the run when no line follows. *)
Lemma next_receipt_bound (x t_end : datetime) (env : list tick)
    (nxt : datetime) (rest : list datetime) :
  Forall (fun r => x <= r) (clock env) ->
  x <= t_end ->
  receipts env ++ [t_end] = nxt :: rest ->
  x <= nxt.
Proof.
  intros Hc He Hn.
  destruct (receipts env) as [|r rs] eqn:E; simpl in Hn.
  - injection Hn as <- _; exact He.
  - injection Hn as <- _.
    apply (proj1 (Forall_forall _ _) Hc), receipts_in_clock.
    rewrite E; left; reflexivity.
Qed.

(** The loop while lines keep coming: [l] is the baseline on entry. *)
Lemma fed_loop (env : list tick) :
  forall (th : SerialMonitorThread) (c : Serial) (l t_end : datetime),
  serial_conn th = Some c ->
  last_received_time th = Some l ->
  monotone (clock env) ->
  Forall (fun r => r <= t_end) (clock env) ->
  closer_than (microseconds (timeout_seconds th))
              (l :: receipts env ++ [t_end]) ->
  timeouts (events (while_is_running th env)) = [].
Proof.
  induction env as [|e env IH]; intros th c l t_end Hc Hl Hm Hb Hg;
    [reflexivity|].
  destruct (while_is_running_cases th e env) as (H1 & H2 & H3 & Hcs).
  set (th0 := if stop_called e then stop th else th) in *.
  destruct Hcs as [->|[(ex & ->)|(evs & th2 & Hr & Hbody & ->)]];
    [reflexivity|reflexivity|].
  apply loop_body_inv in Hbody; destruct Hbody as (evs1 & th1 & Hrb & -> & ->).
  pose proof (read_block_timeouts _ _ _ _ Hrb) as Ht.
  rewrite Hc in H3.
  pose proof (read_block_delivers _ _ _ _ _ H3 Hrb) as Hd.
  unfold events; simpl; rewrite !timeouts_app, Ht; simpl.
  set (T := microseconds (timeout_seconds th)) in *.
  unfold clock in Hm, Hb; simpl in Hm, Hb; fold (clock env) in Hm, Hb.
  unfold receipts in Hg; simpl in Hg; fold (receipts env) in Hg.
  unfold readings in Hm, Hb.
  destruct (delivers e) as [line|].
  - (* a line is handed over: its receipt time becomes the baseline *)
    destruct Hd as [_ ->].
    simpl in Hm, Hb, Hg.
    destruct Hm as [_ Hm]. destruct Hg as [_ Hg].
    inversion Hb as [|? ? _ Hb1]; subst. inversion Hb1 as [|? ? Hce Hb2]; subst.
    destruct (receipts env ++ [t_end]) as [|nxt rest] eqn:En;
      [destruct (receipts env); discriminate|].
    assert (Hn : now_check e <= nxt).
    { apply (next_receipt_bound _ t_end env nxt rest);
        [apply monotone_head; exact Hm|exact Hce|exact En]. }
    rewrite (timeout_block_quiet _ e (now_recv e));
      [|reflexivity|simpl; rewrite H2; fold T; destruct Hg; lia].
    simpl. apply (IH _ c (now_recv e) t_end); try assumption; try reflexivity.
    + apply (monotone_tail (now_check e)); exact Hm.
    + simpl; rewrite H2, En; exact Hg.
  - (* nothing is handed over: the baseline stays *)
    subst th1. simpl in Hm, Hb, Hg.
    inversion Hb as [|? ? Hce Hb1]; subst.
    destruct (receipts env ++ [t_end]) as [|nxt rest] eqn:En;
      [destruct (receipts env); discriminate|].
    assert (Hn : now_check e <= nxt).
    { apply (next_receipt_bound _ t_end env nxt rest);
        [apply monotone_head; exact Hm|exact Hce|exact En]. }
    rewrite (timeout_block_quiet _ e l);
      [|rewrite H1; exact Hl|rewrite H2; fold T; destruct Hg; lia].
    simpl. apply (IH _ c l t_end); try assumption.
    + rewrite H1; exact Hl.
    + apply (monotone_tail (now_check e)); exact Hm.
    + rewrite H2, En; exact Hg.
Qed.

(** C8: when the clock does not go back and every line that is not blank is
    received less than [timeout_seconds] after the previous one, counting
    the open of the port as the first receipt and the end of the observed
    run as the last, the session emits no [timeout_occurred] at all. *)
Theorem steady_lines_never_time_out
    (p : str) (b t : Z) (s : session) (u : unit) :
  open_port s = Returns u ->
  monotone (clock (ticks s)) ->
  closer_than (microseconds t)
    (now_start s :: receipts (ticks s)
       ++ [last (clock (ticks s)) (now_start s)]) ->
  timeouts (events (run (SerialMonitorThread_init p b t) s)) = [].
Proof.
  intros Ho Hm Hg.
  set (th := opened (SerialMonitorThread_init p b t) (now_start s)).
  assert (H : timeouts (events (while_is_running th (ticks s))) = []).
  { apply (fed_loop (ticks s) th
             {| ser_port := p; ser_baudrate := b; ser_timeout := 1;
                is_open := true |} (now_start s)
             (last (clock (ticks s)) (now_start s)));
      try reflexivity; try assumption.
    apply monotone_last; exact Hm. }
  unfold run; rewrite Ho; fold th.
  destruct (while_is_running th (ticks s)) as [[evs th4] [| |ex]];
    unfold events in *; simpl in *; try exact H.
  rewrite timeouts_app, H; reflexivity.
Qed.

End Watchdog.

(** ** Starting a session *)

Section Sessions.

Variable strftime : datetime -> str.
Variable py_int : str -> option Z.

Lemma alloc_fresh (h : store) (o : SerialMonitorThread) :
  nth_error h (length h) = None /\
  nth_error (h ++ [o]) (length h) = Some o /\
  forall r0 o0, nth_error h r0 = Some o0 -> nth_error (h ++ [o]) r0 = Some o0.
Proof.
  split; [apply nth_error_None; lia|]. split.
  - rewrite nth_error_app2, Nat.sub_diag by lia; reflexivity.
  - intros r0 o0 H; rewrite nth_error_app1; [exact H|].
    apply nth_error_Some; congruence.
Qed.

(** C9: whenever [start_monitoring] starts a thread, the thread is a new
    object at an address no earlier thread occupies, built by [__init__]
    from the form alone, with [last_received_time] empty, [is_running]
    false and no connection; the objects of earlier sessions are left as
    they were.  Once the port is open, [run] makes the time of the open the
    baseline: before any iteration it has emitted nothing and holds that
    time; a first silent check within [timeout_seconds] of it emits
    nothing, one later than that (for timeouts below [2^34] seconds) emits
    a timeout formatted from the time of the open; and the new session
    emits no [timeout_occurred] while its readings stay within
    [timeout_seconds] of that time, whatever state an earlier session was
    in. *)
Theorem start_creates_a_fresh_session
    (h : store) (app : SerialMonitorApp)
    (h' : store) (app' : SerialMonitorApp) (r : ref) :
  start_monitoring py_int h app = (h', app', Started r) ->
  nth_error h r = None /\
  (forall r0 o, nth_error h r0 = Some o -> nth_error h' r0 = Some o) /\
  monitor_thread app' = Some r /\
  exists b t,
    py_int (baud_edit app) = Some b /\
    py_int (timeout_edit app) = Some t /\
    nth_error h' r = Some (SerialMonitorThread_init (port_current app) b t) /\
    forall (s : session) (u : unit),
      open_port s = Returns u ->
      last_received_time
        (opened (SerialMonitorThread_init (port_current app) b t) (now_start s))
        = Some (now_start s) /\
      (Forall (fun e => Forall (fun x =>
                 now_start s <= x <= now_start s + microseconds t)
                 (readings e)) (ticks s) ->
       timeouts (events (run strftime
                   (SerialMonitorThread_init (port_current app) b t) s)) = []) /\
      (ticks s = [] ->
       run strftime (SerialMonitorThread_init (port_current app) b t) s
         = ([],
            opened (SerialMonitorThread_init (port_current app) b t)
              (now_start s),
            Alive)) /\
      (forall e,
         ticks s = [e] -> silent e -> stop_called e = false ->
         (now_check e - now_start s <= microseconds t ->
          run strftime (SerialMonitorThread_init (port_current app) b t) s
            = ([],
               opened (SerialMonitorThread_init (port_current app) b t)
                 (now_start s),
               Alive)) /\
         (- 2 ^ 34 < t < 2 ^ 34 ->
          microseconds t < now_check e - now_start s ->
          run strftime (SerialMonitorThread_init (port_current app) b t) s
            = ([fired strftime (now_start s)],
               set_last_received_time
                 (opened (SerialMonitorThread_init (port_current app) b t)
                    (now_start s))
                 (now_check e),
               Alive))).
Proof.
  unfold start_monitoring.
  destruct (port_combo app) as [|item items]; [discriminate|].
  destruct (py_int (baud_edit app)) as [b|]; [|discriminate].
  destruct (py_int (timeout_edit app)) as [t|]; [|discriminate].
  unfold alloc; intros [= <- <- <-].
  destruct (alloc_fresh h (SerialMonitorThread_init (port_current app) b t))
    as (Hn & Hs & Ho).
  repeat split; try assumption.
  exists b, t.
  split; [reflexivity|]. split; [reflexivity|]. split; [exact Hs|].
  intros s u Hopen; split; [reflexivity|].
  set (th0 := SerialMonitorThread_init (port_current app) b t).
  set (th := opened th0 (now_start s)).
  split; [|split].
  - intros Henv; unfold run; rewrite Hopen; fold th.
    assert (Hq : timeouts (events (while_is_running strftime th (ticks s)))
                 = []).
    { apply (quiet_window strftime (ticks s) th (now_start s)).
      - simpl; intros l [= <-]; lia.
      - exact Henv. }
    destruct (while_is_running strftime th (ticks s)) as [[evs th4] [| |ex]];
      unfold events in *; simpl in *; try exact Hq.
    rewrite timeouts_app, Hq; reflexivity.
  - intros He; unfold run; rewrite Hopen, He; reflexivity.
  - intros e He Hsil Hst.
    assert (Hrb : read_block th e = Returns ([], th))
      by (apply (read_block_silent th _ e eq_refl Hsil)).
    pose proof (loop_body_unfold strftime _ _ _ _ Hrb) as Hb.
    pose proof (while_is_running_step strftime th e []
                  ([] ++ fst (timeout_block strftime th e))
                  (snd (timeout_block strftime th e))) as Hstep.
    cbv zeta in Hstep; rewrite Hst in Hstep.
    specialize (Hstep eq_refl Hb).
    split.
    + intros Hq; unfold run; rewrite Hopen, He; fold th.
      rewrite Hstep, (timeout_block_quiet strftime th e (now_start s) eq_refl Hq).
      reflexivity.
    + intros HT Hf; unfold run; rewrite Hopen, He; fold th.
      rewrite Hstep,
        (timeout_block_fire strftime th e (now_start s) eq_refl HT Hf).
      reflexivity.
Qed.

End Sessions.

(** * The properties on the sample inputs *)



(** Silence checked at exactly 5 s: nothing is emitted and the baseline
    stays. *)
Lemma timeout_comparison_is_strict_witness :
  read_block (opened sample_thread 0) (quiet_tick 5000000)
    = Returns ([], opened sample_thread 0) /\
  last_received_time (opened sample_thread 0) = Some 0 /\
  now_check (quiet_tick 5000000) - 0
    = microseconds (timeout_seconds (opened sample_thread 0)) /\
  loop_body plain_strftime (opened sample_thread 0) (quiet_tick 5000000)
    = Returns ([], opened sample_thread 0).
Proof.
  assert (H1 : read_block (opened sample_thread 0) (quiet_tick 5000000)
               = Returns ([], opened sample_thread 0)) by reflexivity.
  assert (H2 : last_received_time (opened sample_thread 0) = Some 0)
    by reflexivity.
  assert (H3 : now_check (quiet_tick 5000000) - 0
               = microseconds (timeout_seconds (opened sample_thread 0)))
    by reflexivity.
  split; [exact H1|]. split; [exact H2|]. split; [exact H3|].
  exact (proj1 (proj1 (timeout_comparison_is_strict plain_strftime
                         _ _ _ _ _ H1 H2) H3)).
Defined.

(** "ping\r\n" read at 2 s: the baseline becomes 2 s and "ping" is
    signalled. *)
Lemma line_updates_baseline_and_is_signalled_once_witness :
  serial_conn (opened sample_thread 0) = Some sample_conn /\
  in_waiting (line_tick ping_line 2000000 2000050) = Returns 6 /\
  0 < 6 /\
  readline (line_tick ping_line 2000000 2000050) = Returns ping_line /\
  forallb isspace ping_line = false /\
  read_block (opened sample_thread 0) (line_tick ping_line 2000000 2000050)
    = Returns ([data_received ping],
               set_last_received_time (opened sample_thread 0) 2000000).
Proof.
  assert (H1 : serial_conn (opened sample_thread 0) = Some sample_conn)
    by reflexivity.
  assert (H2 : in_waiting (line_tick ping_line 2000000 2000050) = Returns 6)
    by reflexivity.
  assert (H3 : 0 < 6) by reflexivity.
  assert (H4 : readline (line_tick ping_line 2000000 2000050)
               = Returns ping_line) by reflexivity.
  assert (H5 : forallb isspace ping_line = false) by reflexivity.
  split; [exact H1|]. split; [exact H2|]. split; [exact H3|].
  split; [exact H4|]. split; [exact H5|].
  exact (proj1 (proj1 (line_updates_baseline_and_is_signalled_once
                         plain_strftime _ _ _ _ _ H1 H2 H3 H4) H5)).
Defined.

(** A line read at 2 s whose timeout check comes at 3.5 s, under a timeout
    of one second: the line and a timeout carrying 2 s. *)
Lemma data_tick_times_out_only_when_slow_witness :
  serial_conn (opened short_thread 0) = Some sample_conn /\
  delivers slow_tick = Some ping /\
  - 2 ^ 34 < timeout_seconds (opened short_thread 0) < 2 ^ 34 /\
  microseconds (timeout_seconds (opened short_thread 0))
    < now_check slow_tick - now_recv slow_tick /\
  loop_body plain_strftime (opened short_thread 0) slow_tick
    = Returns ([data_received ping; fired plain_strftime (now_recv slow_tick)],
               set_last_received_time
                 (set_last_received_time (opened short_thread 0)
                    (now_recv slow_tick))
                 (now_check slow_tick)).
Proof.
  assert (H1 : serial_conn (opened short_thread 0) = Some sample_conn)
    by reflexivity.
  assert (H2 : delivers slow_tick = Some ping) by reflexivity.
  assert (H3 : - 2 ^ 34 < timeout_seconds (opened short_thread 0) < 2 ^ 34)
    by (split; reflexivity).
  assert (H4 : microseconds (timeout_seconds (opened short_thread 0))
               < now_check slow_tick - now_recv slow_tick) by reflexivity.
  split; [exact H1|]. split; [exact H2|]. split; [exact H3|].
  split; [exact H4|].
  exact (proj2 (data_tick_times_out_only_when_slow plain_strftime
                  _ _ _ _ H1 H2) H3 H4).
Defined.

(** C10 does not hold as stated: with a positive timeout of one second, a
    tick whose timeout check comes a second and a half after the receipt
    of its line emits both a [data_received] and a [timeout_occurred]. *)
Lemma slow_data_tick_signals_both :
  0 < timeout_seconds (opened short_thread 0) /\
  loop_body plain_strftime (opened short_thread 0) slow_tick
    = Returns ([data_received ping; fired plain_strftime 2000000],
               set_last_received_time (opened short_thread 0) 3500000).
Proof. split; reflexivity. Qed.

(** C4 does not hold of [run] as stated: when two reads in a row fail
    before anybody has called [stop], [run] emits two [error_occurred]
    signals and is still iterating, with [is_running] set and the
    connection open. *)
Lemma read_error_does_not_end_the_loop :
  errors (events (run plain_strftime sample_thread two_failed_reads))
    = [error_occurred (read_error_prefix ++ boom);
       error_occurred (read_error_prefix ++ boom)] /\
  snd (run plain_strftime sample_thread two_failed_reads) = Alive /\
  is_running (snd (fst (run plain_strftime sample_thread two_failed_reads)))
    = true /\
  serial_conn (snd (fst (run plain_strftime sample_thread two_failed_reads)))
    = Some sample_conn.
Proof. repeat split. Qed.

(** The port cannot be opened: one [error_occurred], the thread as
    [__init__] left it. *)
Lemma open_failure_is_signalled_once_witness :
  open_port refused_session = Raises (Exception boom) /\
  run plain_strftime (SerialMonitorThread_init COM3 9600 5) refused_session
    = ([error_occurred (connect_error_prefix ++ boom)],
       SerialMonitorThread_init COM3 9600 5, Finished).
Proof.
  assert (H1 : open_port refused_session = Raises (Exception boom))
    by reflexivity.
  split; [exact H1|].
  exact (proj1 (open_failure_is_signalled_once plain_strftime
                  COM3 9600 5 _ _ H1)).
Defined.

(** A session stopped after one tick ends with the connection closed. *)
Lemma connection_released_on_termination_witness :
  ((exists ex, open_port stopped_session = Raises ex) \/
   (exists u, open_port stopped_session = Returns u /\
      snd (while_is_running plain_strftime
             (opened sample_thread (now_start stopped_session))
             (ticks stopped_session)) <> Exhausted)) /\
  snd (run plain_strftime sample_thread stopped_session) = Finished /\
  released (snd (fst (run plain_strftime sample_thread stopped_session))).
Proof.
  assert (H1 : (exists ex, open_port stopped_session = Raises ex) \/
               (exists u, open_port stopped_session = Returns u /\
                  snd (while_is_running plain_strftime
                         (opened sample_thread (now_start stopped_session))
                         (ticks stopped_session)) <> Exhausted)).
  { right; exists tt; split; [reflexivity|discriminate]. }
  split; [exact H1|].
  pose proof (connection_released_on_termination plain_strftime
                sample_thread stopped_session H1) as (Ha & Hb & _).
  split; [exact Ha|exact Hb].
Defined.

(** The other two ways of finishing, evaluated: a failed open and an
    exception from [in_waiting]. *)
Example refused_session_is_released :
  snd (run plain_strftime sample_thread refused_session) = Finished /\
  serial_conn (snd (fst (run plain_strftime sample_thread refused_session)))
    = None.
Proof. split; reflexivity. Qed.

Example unplugged_session_is_released :
  run plain_strftime sample_thread unplugged_session
    = ([error_occurred (connect_error_prefix ++ boom)],
       set_serial_conn (opened sample_thread 0) (Some (close sample_conn)),
       Finished).
Proof. reflexivity. Qed.



Example silent_session_signals :
  run plain_strftime sample_thread silent_session
    = ([fired plain_strftime 0; fired plain_strftime 6000000],
       set_last_received_time (opened sample_thread 0) 12000000, Alive).
Proof. reflexivity. Qed.

(** Lines at 2 s and 6 s, observed until 9 s, with a timeout of five
    seconds: no timeout. *)
Lemma steady_lines_never_time_out_witness :
  open_port steady_session = Returns tt /\
  monotone (clock (ticks steady_session)) /\
  closer_than (microseconds 5)
    (now_start steady_session :: receipts (ticks steady_session)
       ++ [last (clock (ticks steady_session)) (now_start steady_session)]) /\
  timeouts (events (run plain_strftime (SerialMonitorThread_init COM3 9600 5)
                      steady_session)) = [].
Proof.
  assert (H1 : open_port steady_session = Returns tt) by reflexivity.
  assert (H2 : monotone (clock (ticks steady_session)))
    by (repeat split; discriminate).
  assert (H3 : closer_than (microseconds 5)
                 (now_start steady_session :: receipts (ticks steady_session)
                    ++ [last (clock (ticks steady_session))
                             (now_start steady_session)]))
    by (repeat split).
  split; [exact H1|]. split; [exact H2|]. split; [exact H3|].
  exact (steady_lines_never_time_out plain_strftime COM3 9600 5
           steady_session tt H1 H2 H3).
Defined.

Example steady_session_signals :
  events (run plain_strftime sample_thread steady_session)
    = [data_received ping; data_received ping].
Proof. reflexivity. Qed.

(** Starting again right after a stop: the new thread sits at address 1,
    next to the stopped one, and is what [__init__] builds from the form. *)
Lemma start_creates_a_fresh_session_witness :
  start_monitoring decimal_int (fst after_stop) (snd after_stop)
    = ([stop stale_thread; sample_thread],
       set_monitor_thread sample_app (Some 1%nat), Started 1%nat) /\
  nth_error (fst after_stop) 1%nat = None /\
  (forall r0 o, nth_error (fst after_stop) r0 = Some o ->
                nth_error [stop stale_thread; sample_thread] r0 = Some o).
Proof.
  assert (H1 : start_monitoring decimal_int (fst after_stop) (snd after_stop)
               = ([stop stale_thread; sample_thread],
                  set_monitor_thread sample_app (Some 1%nat), Started 1%nat))
    by reflexivity.
  split; [exact H1|].
  pose proof (start_creates_a_fresh_session plain_strftime decimal_int
                _ _ _ _ _ H1) as (Ha & Hb & _).
  split; [exact Ha|exact Hb].
Defined.

(** With a timeout of zero seconds, which [start_monitoring] accepts, a line
    and a timeout are signalled in the same tick as soon as the clock moves
    between the receipt and the check. *)
Example zero_timeout_signals_both :
  loop_body plain_strftime
      (opened (SerialMonitorThread_init COM3 9600 0) 0)
      (line_tick ping_line 2000000 2000050)
    = Returns ([data_received ping; fired plain_strftime 2000000],
               set_last_received_time
                 (opened (SerialMonitorThread_init COM3 9600 0) 0) 2000050).
Proof. reflexivity. Qed.

(** * Further properties of the thread *)

Lemma lstrip_fixed (s : str) (c : char) (t : str) :
  s = c :: t -> isspace c = false -> lstrip s = s.
Proof. intros -> H; simpl; rewrite H; reflexivity. Qed.

Lemma lstrip_idempotent (s : str) : lstrip (lstrip s) = lstrip s.
Proof.
  destruct (lstrip s) as [|c t] eqn:E; [reflexivity|].
  apply (lstrip_fixed _ c t eq_refl), (lstrip_head s c t E).
Qed.

Lemma lstrip_suffix (s : str) : exists p, s = p ++ lstrip s.
Proof.
  induction s as [|a s [p IH]]; [exists []; reflexivity|].
  simpl; destruct (isspace a).
  - exists (a :: p); simpl; rewrite <- IH; reflexivity.
  - exists []; reflexivity.
Qed.

Lemma rstrip_idempotent (s : str) : rstrip (rstrip s) = rstrip s.
Proof.
  unfold rstrip; rewrite rev_involutive, lstrip_idempotent; reflexivity.
Qed.

Lemma rstrip_prefix (s : str) : exists q, s = rstrip s ++ q.
Proof.
  destruct (lstrip_suffix (rev s)) as [p H].
  exists (rev p); unfold rstrip.
  rewrite <- rev_app_distr, <- H, rev_involutive; reflexivity.
Qed.

(** What [strip] returns has nothing left to strip at either end. *)
Lemma strip_fixed (s : str) :
  lstrip (strip s) = strip s /\ rstrip (strip s) = strip s.
Proof.
  split; [|apply rstrip_idempotent].
  unfold strip.
  destruct (lstrip s) as [|c t] eqn:E; [reflexivity|].
  destruct (rstrip_prefix (c :: t)) as [q Hq].
  destruct (rstrip (c :: t)) as [|c' t'] eqn:E'; [reflexivity|].
  injection Hq as <- _.
  apply (lstrip_fixed _ c t' eq_refl), (lstrip_head s c t E).
Qed.

Lemma delivers_stripped (e : tick) (d : str) :
  delivers e = Some d -> d <> [] /\ lstrip d = d /\ rstrip d = d.
Proof.
  unfold delivers.
  destruct (in_waiting e) as [n|]; [|discriminate].
  destruct (readline e) as [data|]; [|discriminate].
  destruct (0 <? n); [|discriminate].
  destruct (strip data) as [|c t] eqn:E; [discriminate|].
  intros [= <-]; rewrite <- E; split; [rewrite E; discriminate|].
  apply strip_fixed.
Qed.

Section Thread.

Variable strftime : datetime -> str.

Local Abbreviation timeout_block := (timeout_block strftime).
Local Abbreviation loop_body := (loop_body strftime).
Local Abbreviation while_is_running := (while_is_running strftime).
Local Abbreviation run := (run strftime).
Local Abbreviation fired := (fired strftime).

(** The shapes a completed iteration can have: what it emits first, what
    the timeout check adds, and what becomes of the thread. *)
Lemma loop_body_shape th e evs th' :
  loop_body th e = Returns (evs, th') ->
  exists first second,
    evs = first ++ second /\
    (first = [] \/
     (exists d, delivers e = Some d /\ first = [data_received d]) \/
     (exists m, first = [error_occurred m])) /\
    (second = [] \/ exists l, second = [fired l]) /\
    is_running th' = is_running th /\
    serial_conn th' = serial_conn th /\
    timeout_seconds th' = timeout_seconds th.
Proof.
  intros Hb; apply (loop_body_inv strftime) in Hb.
  destruct Hb as (evs1 & th1 & Hrb & -> & ->).
  exists evs1, (fst (timeout_block th1 e)).
  pose proof (read_block_fields _ _ _ _ Hrb) as (Ht & Hr & Hc).
  destruct (timeout_block_fields strftime th1 e) as (Ht' & Hr' & Hc').
  split; [reflexivity|]. split; [|split].
  - apply read_block_cases in Hrb.
    destruct Hrb as [[-> _]|[(ex & _ & -> & _)|(line & Hd & -> & _)]]; eauto.
  - unfold timeout_block.
    destruct (last_received_time th1) as [l|]; [|left; reflexivity].
    simpl; destruct (exceeds _ _); [right; exists l|left]; reflexivity.
  - repeat split; congruence.
Qed.

(** The loop continued: when it gets through [pre], it goes on with the
    rest from the state [pre] left. *)
Lemma while_is_running_app (pre : list tick) : forall th evs th1 rest,
  while_is_running th pre = (evs, th1, Exhausted) ->
  while_is_running th (pre ++ rest) =
    (evs ++ events (while_is_running th1 rest),
     snd (fst (while_is_running th1 rest)),
     snd (while_is_running th1 rest)).
Proof.
  induction pre as [|e pre IH]; intros th evs th1 rest H.
  - injection H as <- <-; simpl.
    destruct (while_is_running th rest) as [[a b] c]; reflexivity.
  - destruct (while_is_running_cases strftime th e pre) as (_ & _ & _ & Hc).
    destruct (while_is_running_cases strftime th e (pre ++ rest))
      as (_ & _ & _ & Hc').
    set (th0 := if stop_called e then stop th else th) in *.
    destruct Hc as [Hs|[(ex & Hs)|(evs0 & th2 & Hr & Hb & Hs)]];
      rewrite Hs in H; try discriminate.
    injection H as <- H2 H3.
    destruct (while_is_running th2 pre) as [[evs2 th3] x] eqn:E.
    simpl in H2, H3; subst th3 x.
    change ((e :: pre) ++ rest) with (e :: (pre ++ rest)).
    rewrite (while_is_running_step strftime th e (pre ++ rest) evs0 th2 Hr Hb).
    rewrite (IH th2 evs2 th1 rest E); unfold events; simpl.
    rewrite app_assoc; reflexivity.
Qed.

(** The loop keeps the flag and the connection while it is not stopped. *)
Lemma exhausted_fields (pre : list tick) : forall th evs th1,
  while_is_running th pre = (evs, th1, Exhausted) ->
  is_running th = true ->
  is_running th1 = true /\ serial_conn th1 = serial_conn th.
Proof.
  induction pre as [|e pre IH]; intros th evs th1 H Hrun.
  - injection H as _ <-; auto.
  - destruct (while_is_running_cases strftime th e pre) as (_ & _ & H3 & Hc).
    set (th0 := if stop_called e then stop th else th) in *.
    destruct Hc as [Hs|[(ex & Hs)|(evs0 & th2 & Hr & Hb & Hs)]];
      rewrite Hs in H; try discriminate.
    destruct (while_is_running th2 pre) as [[evs2 th3] x] eqn:E.
    simpl in H; injection H as _ <- ->.
    apply loop_body_shape in Hb.
    destruct Hb as (_ & _ & _ & _ & _ & Hr2 & Hc2 & _).
    destruct (IH th2 evs2 th3 E) as [Ha Hb']; [congruence|].
    split; [exact Ha|congruence].
Qed.

(** X1: an exception raised by [in_waiting] ends the session.  The signals
    of the completed iterations are followed by one [error_occurred] with
    the prefix of a connection error; [run] is finished and the connection
    is closed, yet [is_running] is still set. *)
Theorem in_waiting_failure_ends_the_run
    (th : SerialMonitorThread) (s : session) (u : unit)
    (pre post : list tick) (e : tick)
    (evs : list signal) (th1 : SerialMonitorThread) (ex : exception) :
  open_port s = Returns u ->
  ticks s = pre ++ e :: post ->
  while_is_running (opened th (now_start s)) pre = (evs, th1, Exhausted) ->
  stop_called e = false ->
  in_waiting e = Raises ex ->
  run th s =
    (evs ++ [error_occurred (connect_error_prefix ++ str_exc ex)],
     finally_block th1, Finished) /\
  released (finally_block th1) /\
  is_running (finally_block th1) = true.
Proof.
  intros Ho Ht Hpre Hs Hw.
  destruct (exhausted_fields pre _ _ _ Hpre eq_refl) as [Hr Hc].
  simpl in Hc.
  assert (Hl : while_is_running th1 (e :: post) = ([], th1, Raised ex)).
  { pose proof (while_is_running_raise strftime th1 e post ex) as H.
    cbv zeta in H; rewrite Hs in H; apply H; [exact Hr|].
    unfold loop_body, read_block; rewrite Hc, Hw; reflexivity. }
  split; [|split].
  - unfold run; rewrite Ho, Ht.
    rewrite (while_is_running_app pre _ _ _ _ Hpre), Hl; unfold events; simpl.
    rewrite app_nil_r; reflexivity.
  - apply finally_block_released.
  - unfold finally_block; rewrite Hc; simpl; exact Hr.
Qed.

(** X2: once the loop test finds that [stop] was called, nothing more is
    emitted, whatever was waiting or due in that iteration and whatever
    would have followed: the signals are those of the completed
    iterations, [run] is finished and the connection is closed. *)
Theorem stop_ends_the_run_silently
    (th : SerialMonitorThread) (s : session) (u : unit)
    (pre post : list tick) (e : tick)
    (evs : list signal) (th1 : SerialMonitorThread) :
  open_port s = Returns u ->
  ticks s = pre ++ e :: post ->
  while_is_running (opened th (now_start s)) pre = (evs, th1, Exhausted) ->
  stop_called e = true ->
  run th s = (evs, finally_block (stop th1), Finished) /\
  released (finally_block (stop th1)) /\
  is_running (finally_block (stop th1)) = false.
Proof.
  intros Ho Ht Hpre Hs.
  assert (Hl : while_is_running th1 (e :: post) = ([], stop th1, Stopped)).
  { pose proof (while_is_running_stop strftime th1 e post) as H.
    cbv zeta in H; rewrite Hs in H; apply H; reflexivity. }
  split; [|split].
  - unfold run; rewrite Ho, Ht.
    rewrite (while_is_running_app pre _ _ _ _ Hpre), Hl; unfold events; simpl.
    rewrite app_nil_r; reflexivity.
  - apply finally_block_released.
  - unfold finally_block; simpl.
    destruct (serial_conn th1) as [c|]; [destruct (is_open c)|]; reflexivity.
Qed.

Lemma while_keeps_is_running (env : list tick) : forall th,
  is_running th = true ->
  Forall (fun e => stop_called e = false) env ->
  is_running (snd (fst (while_is_running th env))) = true.
Proof.
  induction env as [|e env IH]; intros th Hr Hs; [exact Hr|].
  inversion Hs as [|? ? He Hs']; subst.
  destruct (while_is_running_cases strftime th e env) as (_ & _ & _ & Hc).
  rewrite He in Hc.
  destruct Hc as [->|[(ex & ->)|(evs0 & th2 & _ & Hb & ->)]];
    try exact Hr.
  simpl; apply IH; [|exact Hs'].
  apply loop_body_shape in Hb.
  destruct Hb as (_ & _ & _ & _ & _ & Hr2 & _); congruence.
Qed.

(** X3: [run] sets [is_running] and never clears it.  Unless [stop] is
    called, the flag is still set in whatever state [run] is observed,
    also after it has finished through an exception. *)
Theorem run_never_clears_is_running
    (th : SerialMonitorThread) (s : session) (u : unit) :
  open_port s = Returns u ->
  Forall (fun e => stop_called e = false) (ticks s) ->
  is_running (snd (fst (run th s))) = true.
Proof.
  intros Ho Hs.
  pose proof (while_keeps_is_running (ticks s) (opened th (now_start s))
                eq_refl Hs) as H.
  unfold run; rewrite Ho.
  destruct (while_is_running _ _) as [[evs th4] [| |ex]]; simpl in *;
    try exact H;
    unfold finally_block;
    (destruct (serial_conn th4) as [c|]; [destruct (is_open c)|]); exact H.
Qed.

(** X4: an iteration emits at most two signals: at most one
    [data_received] or [error_occurred], never both, and after it at most
    one [timeout_occurred]. *)
Theorem tick_emits_at_most_two_signals
    (th : SerialMonitorThread) (e : tick)
    (evs : list signal) (th' : SerialMonitorThread) :
  loop_body th e = Returns (evs, th') ->
  (length evs <= 2)%nat /\
  (length (datas evs) + length (errors evs) <= 1)%nat /\
  (length (timeouts evs) <= 1)%nat /\
  evs = (datas evs ++ errors evs) ++ timeouts evs.
Proof.
  intros Hb; apply loop_body_shape in Hb.
  destruct Hb as (first & second & -> & Hf & Hs & _).
  destruct Hf as [->|[(d & _ & ->)|(m & ->)]];
    destruct Hs as [->|(l & ->)]; simpl; repeat split; lia.
Qed.

Lemma while_data_origin (env : list tick) : forall th d,
  In (data_received d) (events (while_is_running th env)) ->
  exists e, In e env /\ delivers e = Some d.
Proof.
  induction env as [|e env IH]; intros th d H; [contradiction|].
  destruct (while_is_running_cases strftime th e env) as (_ & _ & _ & Hc).
  destruct Hc as [Hs|[(ex & Hs)|(evs0 & th2 & _ & Hb & Hs)]];
    rewrite Hs in H; try contradiction.
  unfold events in H; simpl in H; apply in_app_or in H.
  destruct H as [H|H].
  - exists e; split; [left; reflexivity|].
    apply loop_body_shape in Hb.
    destruct Hb as (first & second & -> & Hf & Hsd & _).
    apply in_app_or in H; destruct H as [H|H].
    + destruct Hf as [->|[(d' & Hd & ->)|(m & ->)]]; simpl in H;
        try tauto; destruct H as [H|[]]; try discriminate.
      injection H as <-; exact Hd.
    + destruct Hsd as [->|(l & ->)]; simpl in H; try tauto.
      destruct H as [H|[]]; discriminate.
  - destruct (IH th2 d H) as (e' & He' & Hd).
    exists e'; split; [right; exact He'|exact Hd].
Qed.

(** X5: every text [run] hands out in a [data_received] is non-empty and
    has no whitespace left at either end. *)
Theorem data_received_is_stripped
    (th : SerialMonitorThread) (s : session) (d : str) :
  In (data_received d) (events (run th s)) ->
  d <> [] /\ lstrip d = d /\ rstrip d = d.
Proof.
  intros H.
  assert (Hw : In (data_received d)
                 (events (while_is_running (opened th (now_start s))
                            (ticks s)))).
  { revert H; unfold run.
    destruct (open_port s); [|intros [H|[]]; discriminate].
    destruct (while_is_running _ _) as [[evs th4] [| |ex]];
      unfold events; simpl; auto.
    intros H; apply in_app_or in H; destruct H as [H|[H|[]]];
      [exact H|discriminate]. }
  apply while_data_origin in Hw; destruct Hw as (e & _ & Hd).
  apply (delivers_stripped e d Hd).
Qed.

Lemma read_block_returns th c e n :
  serial_conn th = Some c ->
  in_waiting e = Returns n ->
  exists evs1 th1, read_block th e = Returns (evs1, th1).
Proof.
  intros Hc Hw; unfold read_block; rewrite Hc, Hw.
  destruct (0 <? n); [|eauto].
  destruct (readline e) as [data|ex]; [|eauto].
  destruct (strip data); eauto.
Qed.

(** The loop does not end by itself: while [stop] is not called and
    [in_waiting] does not raise, it is still iterating. *)
Lemma while_exhausts (env : list tick) : forall th c,
  serial_conn th = Some c ->
  is_running th = true ->
  Forall (fun e => stop_called e = false /\
                   exists n, in_waiting e = Returns n) env ->
  snd (while_is_running th env) = Exhausted.
Proof.
  induction env as [|e env IH]; intros th c Hc Hr He; [reflexivity|].
  inversion He as [|? ? [Hs (n & Hw)] He']; subst.
  destruct (read_block_returns th c e n Hc Hw) as (evs1 & th1 & Hrb).
  pose proof (loop_body_unfold strftime _ _ _ _ Hrb) as Hb.
  pose proof (while_is_running_step strftime th e env
                (evs1 ++ fst (timeout_block th1 e))
                (snd (timeout_block th1 e))) as Hstep.
  cbv zeta in Hstep; rewrite Hs in Hstep; rewrite (Hstep Hr Hb); simpl.
  apply loop_body_shape in Hb.
  destruct Hb as (_ & _ & _ & _ & _ & Hr2 & Hc2 & _).
  apply (IH _ c); [congruence|congruence|exact He'].
Qed.

(** The loop under a negative timeout: every timeout check fires. *)
Lemma negative_loop (env : list tick) : forall th c l,
  serial_conn th = Some c ->
  is_running th = true ->
  last_received_time th = Some l ->
  timeout_seconds th < 0 ->
  Forall (fun e => stop_called e = false /\
                   exists n, in_waiting e = Returns n) env ->
  monotone (l :: clock env) ->
  length (timeouts (events (while_is_running th env))) = length env.
Proof.
  induction env as [|e env IH]; intros th c l Hc Hr Hl Ht He Hm;
    [reflexivity|].
  inversion He as [|? ? [Hs (n & Hw)] He']; subst.
  destruct (read_block_returns th c e n Hc Hw) as (evs1 & th1 & Hrb).
  pose proof (read_block_timeouts _ _ _ _ Hrb) as Hno.
  pose proof (read_block_fields _ _ _ _ Hrb) as (Ht1 & Hr1 & Hc1).
  pose proof (read_block_delivers _ _ _ _ _ Hc Hrb) as Hd.
  unfold clock in Hm; simpl in Hm; fold (clock env) in Hm.
  unfold readings in Hm.
  assert (Hfire : exists l1,
            last_received_time th1 = Some l1 /\
            l1 <= now_check e /\ monotone (now_check e :: clock env)).
  { unfold monotone in Hm |- *.
    destruct (delivers e) as [line|].
    - destruct Hd as [_ ->]; exists (now_recv e).
      change (neighbours Z.le
                (l :: now_recv e :: now_check e :: clock env)) in Hm.
      destruct Hm as (_ & Hle & Hm); repeat split; assumption.
    - subst th1; exists l.
      change (neighbours Z.le (l :: now_check e :: clock env)) in Hm.
      destruct Hm as (Hle & Hm); repeat split; assumption. }
  destruct Hfire as (l1 & Hl1 & Hle & Hm').
  assert (Hf : timeout_block th1 e
               = ([fired l1], set_last_received_time th1 (now_check e))).
  { apply timeout_block_fire_negative; [exact Hl1|rewrite Ht1; exact Ht|].
    exact Hle. }
  pose proof (loop_body_unfold strftime _ _ _ _ Hrb) as Hb.
  rewrite Hf in Hb; simpl in Hb.
  pose proof (while_is_running_step strftime th e env
                (evs1 ++ [fired l1])
                (set_last_received_time th1 (now_check e))) as Hstep.
  cbv zeta in Hstep; rewrite Hs in Hstep; rewrite (Hstep Hr Hb).
  unfold events at 1; simpl.
  rewrite !timeouts_app, Hno; simpl; f_equal.
  apply (IH _ c (now_check e)); simpl; try congruence; assumption.
Qed.

(** X6: a negative timeout, which [start_monitoring] lets through, makes
    every iteration signal a timeout: on a clock that does not go back, a
    session that is not stopped and whose [in_waiting] does not raise emits
    as many [timeout_occurred] as it has made iterations. *)
Theorem negative_timeout_fires_every_tick
    (p : str) (b t : Z) (s : session) (u : unit) :
  t < 0 ->
  open_port s = Returns u ->
  Forall (fun e => stop_called e = false /\
                   exists n, in_waiting e = Returns n) (ticks s) ->
  monotone (now_start s :: clock (ticks s)) ->
  length (timeouts (events (run (SerialMonitorThread_init p b t) s)))
    = length (ticks s).
Proof.
  intros Ht Ho He Hm.
  set (th := opened (SerialMonitorThread_init p b t) (now_start s)).
  set (c := {| ser_port := p; ser_baudrate := b; ser_timeout := 1;
               is_open := true |}).
  pose proof (negative_loop (ticks s) th c (now_start s)
                eq_refl eq_refl eq_refl Ht He Hm) as Hn.
  pose proof (while_exhausts (ticks s) th c eq_refl eq_refl He) as Hx.
  unfold run; rewrite Ho; fold th.
  destruct (while_is_running th (ticks s)) as [[evs th4] x].
  simpl in Hx; subst x; exact Hn.
Qed.

End Thread.

Lemma update_last (h : store) (o : SerialMonitorThread)
    (f : SerialMonitorThread -> SerialMonitorThread) :
  update (h ++ [o]) (length h) f = h ++ [f o].
Proof. induction h as [|a h IH]; simpl; [|rewrite IH]; reflexivity. Qed.

Lemma nth_error_update_other (h : store) : forall r r' f,
  r' <> r -> nth_error (update h r f) r' = nth_error h r'.
Proof.
  induction h as [|o h IH]; intros [|r] [|r'] f Hne; simpl; auto;
    try contradiction; apply IH; congruence.
Qed.

Lemma length_update (h : store) : forall r f,
  length (update h r f) = length h.
Proof.
  induction h as [|o h IH]; intros [|r] f; simpl; auto.
Qed.

(** X7: a [stop] that comes before [run] has opened the port is lost.
    Stopping right after starting leaves the store as it is, since the new
    thread has [is_running] false already, and drops the reference of the
    window; when the port then opens, [run] sets the flag and the thread
    keeps iterating with nothing left to stop it. *)
Theorem early_stop_is_lost
    (strftime : datetime -> str) (py_int : str -> option Z)
    (h : store) (app : SerialMonitorApp)
    (h1 : store) (app1 : SerialMonitorApp) (r : ref) :
  start_monitoring py_int h app = (h1, app1, Started r) ->
  stop_monitoring h1 app1 = (h1, set_monitor_thread app1 None) /\
  exists th,
    nth_error h1 r = Some th /\
    forall (s : session) (u : unit),
      open_port s = Returns u ->
      Forall (fun e => stop_called e = false /\
                       exists n, in_waiting e = Returns n) (ticks s) ->
      snd (run strftime th s) = Alive /\
      is_running (snd (fst (run strftime th s))) = true.
Proof.
  unfold start_monitoring.
  destruct (port_combo app) as [|item items]; [discriminate|].
  destruct (py_int (baud_edit app)) as [b|]; [|discriminate].
  destruct (py_int (timeout_edit app)) as [t|]; [|discriminate].
  unfold alloc; intros [= <- <- <-].
  set (th := SerialMonitorThread_init (port_current app) b t).
  split.
  - unfold stop_monitoring; simpl; rewrite update_last; reflexivity.
  - exists th; split; [exact (proj1 (proj2 (alloc_fresh h th)))|].
    intros s u Ho He.
    assert (Hs : Forall (fun e => stop_called e = false) (ticks s)).
    { apply (Forall_impl _ (P := fun e => stop_called e = false /\
                                   exists n, in_waiting e = Returns n));
        [tauto|exact He]. }
    pose proof (while_exhausts strftime (ticks s) (opened th (now_start s))
                  _ eq_refl eq_refl He) as Hx.
    pose proof (while_keeps_is_running strftime (ticks s)
                  (opened th (now_start s)) eq_refl Hs) as Hk.
    unfold run; rewrite Ho.
    destruct (while_is_running strftime _ _) as [[evs th4] x].
    simpl in Hx, Hk; subst x; split; [reflexivity|exact Hk].
Qed.

(** * Read errors *)

(** C4, as the code has it.  A failing [readline] makes the tick emit one
    [error_occurred] for that read and changes nothing in the thread:
    [is_running] stays set, the connection stays open and the timeout check
    of the same tick still runs.  The read error does not end the loop:
    while [stop] is not called and [in_waiting] does not raise, the loop is
    still iterating, and a further failing read is signalled again.  Once
    [stop] has been called the loop leaves at its next test and the
    connection is closed; the slot [on_error_occurred] calls [stop] on the
    thread the window monitors, and does nothing when it monitors none. *)
Theorem read_error_is_signalled_and_loop_goes_on
    (strftime : datetime -> str)
    (th : SerialMonitorThread) (c : Serial) (e : tick) (n : Z)
    (ex : exception) :
  serial_conn th = Some c ->
  is_running th = true ->
  stop_called e = false ->
  in_waiting e = Returns n -> 0 < n ->
  readline e = Raises ex ->
  let err := error_occurred (read_error_prefix ++ str_exc ex) in
  let evs := [err] ++ fst (timeout_block strftime th e) in
  let th1 := snd (timeout_block strftime th e) in
  read_block th e = Returns ([err], th) /\
  loop_body strftime th e = Returns (evs, th1) /\
  errors evs = [err] /\
  is_running th1 = true /\
  serial_conn th1 = Some c /\
  (forall env,
     events (while_is_running strftime th (e :: env))
       = evs ++ events (while_is_running strftime th1 env)) /\
  (forall env,
     Forall (fun e' => stop_called e' = false /\
                       exists n', in_waiting e' = Returns n') env ->
     snd (while_is_running strftime th (e :: env)) = Exhausted) /\
  (forall e2 n2 ex2,
     in_waiting e2 = Returns n2 -> 0 < n2 ->
     readline e2 = Raises ex2 ->
     read_block th1 e2
       = Returns ([error_occurred (read_error_prefix ++ str_exc ex2)], th1)) /\
  (forall e' env,
     stop_called e' = true ->
     while_is_running strftime th1 (e' :: env) = ([], stop th1, Stopped) /\
     released (finally_block (stop th1))) /\
  (forall h app msg r,
     monitor_thread app = Some r ->
     nth_error h r = Some th1 ->
     nth_error (fst (on_error_occurred h app msg)) r = Some (stop th1) /\
     monitor_thread (snd (on_error_occurred h app msg)) = None) /\
  (forall h app msg,
     monitor_thread app = None -> on_error_occurred h app msg = (h, app)).
Proof.
  intros Hc Hr Hs Hw Hn Hl err evs th1.
  assert (Hpos : (0 <? n) = true) by (apply Z.ltb_lt; exact Hn).
  assert (Hrb : read_block th e = Returns ([err], th)).
  { unfold read_block; rewrite Hc, Hw, Hpos, Hl; reflexivity. }
  destruct (timeout_block_fields strftime th e) as (_ & Hr1 & Hc1).
  fold th1 in Hr1, Hc1.
  assert (Hb : loop_body strftime th e = Returns (evs, th1))
    by apply (loop_body_unfold strftime _ _ _ _ Hrb).
  assert (Hstep : forall env,
            while_is_running strftime th (e :: env) =
              (evs ++ events (while_is_running strftime th1 env),
               snd (fst (while_is_running strftime th1 env)),
               snd (while_is_running strftime th1 env))).
  { intros env.
    pose proof (while_is_running_step strftime th e env evs th1) as H.
    cbv zeta in H; rewrite Hs in H; apply H; assumption. }
  split; [exact Hrb|]. split; [exact Hb|].
  split.
  { unfold evs; rewrite errors_app; unfold timeout_block.
    destruct (last_received_time th); [|reflexivity].
    simpl; destruct (exceeds _ _); reflexivity. }
  split; [rewrite Hr1; exact Hr|].
  split; [rewrite Hc1; exact Hc|].
  split; [intros env; rewrite Hstep; reflexivity|].
  split.
  { intros env He; rewrite Hstep; simpl.
    apply (while_exhausts strftime env th1 c); [congruence|congruence|exact He]. }
  split.
  { intros e2 n2 ex2 Hw2 Hn2 Hl2.
    assert (Hpos2 : (0 <? n2) = true) by (apply Z.ltb_lt; exact Hn2).
    unfold read_block; rewrite Hc1, Hc, Hw2, Hpos2, Hl2; reflexivity. }
  split.
  { intros e' env Hs'; split; [|apply finally_block_released].
    pose proof (while_is_running_stop strftime th1 e' env) as H.
    cbv zeta in H; rewrite Hs' in H; apply H; reflexivity. }
  split.
  { intros h app msg r Hm Hh; unfold on_error_occurred, stop_monitoring.
    rewrite Hm; simpl; rewrite nth_error_update, Hh; auto. }
  intros h app msg Hm; unfold on_error_occurred, stop_monitoring.
  rewrite Hm; reflexivity.
Qed.

(** A failed read at 0.1 s: one [error_occurred], the thread unchanged. *)
Lemma read_error_is_signalled_and_loop_goes_on_witness :
  serial_conn (opened sample_thread 0) = Some sample_conn /\
  is_running (opened sample_thread 0) = true /\
  stop_called (failing_tick boom 100000) = false /\
  in_waiting (failing_tick boom 100000) = Returns 1 /\
  0 < 1 /\
  readline (failing_tick boom 100000) = Raises (Exception boom) /\
  read_block (opened sample_thread 0) (failing_tick boom 100000)
    = Returns ([error_occurred (read_error_prefix ++ boom)],
               opened sample_thread 0).
Proof.
  assert (H1 : serial_conn (opened sample_thread 0) = Some sample_conn)
    by reflexivity.
  assert (H2 : is_running (opened sample_thread 0) = true) by reflexivity.
  assert (H3 : stop_called (failing_tick boom 100000) = false) by reflexivity.
  assert (H4 : in_waiting (failing_tick boom 100000) = Returns 1)
    by reflexivity.
  assert (H5 : 0 < 1) by reflexivity.
  assert (H6 : readline (failing_tick boom 100000) = Raises (Exception boom))
    by reflexivity.
  split; [exact H1|]. split; [exact H2|]. split; [exact H3|].
  split; [exact H4|]. split; [exact H5|]. split; [exact H6|].
  exact (proj1 (read_error_is_signalled_and_loop_goes_on plain_strftime
                  _ _ _ _ _ H1 H2 H3 H4 H5 H6)).
Defined.

(** * Properties of the window *)

Module WindowFacts.

Lemma str_eqb_eq (a : str) : forall b, Window.str_eqb a b = true <-> a = b.
Proof.
  induction a as [|x a IH]; intros [|y b]; simpl;
    try (split; [discriminate|discriminate]); [tauto|].
  rewrite andb_true_iff, N.eqb_eq, IH.
  split; [intros [-> ->]; reflexivity|intros [= -> ->]; auto].
Qed.

Lemma found_In (items : list str) (t : str) :
  Window.found items t = true <-> In t items.
Proof.
  unfold Window.found; rewrite existsb_exists; split.
  - intros (x & Hx & He); apply str_eqb_eq in He; subst; exact Hx.
  - intros H; exists t; split; [exact H|apply str_eqb_eq; reflexivity].
Qed.

Lemma lastn_app_lastn {A : Type} (n : nat) (a b : list A) :
  Window.lastn n (Window.lastn n a ++ b) = Window.lastn n (a ++ b).
Proof.
  unfold Window.lastn.
  destruct (Nat.le_gt_cases (length a) n) as [Hle|Hgt].
  - replace (length a - n)%nat with 0%nat by lia; reflexivity.
  - rewrite !length_app, length_skipn.
    replace (length a - (length a - n) + length b - n)%nat
      with (length b) by lia.
    replace (length a + length b - n)%nat
      with (length b + (length a - n))%nat by lia.
    rewrite <- skipn_skipn, (skipn_app (length a - n)).
    replace (length a - n - length a)%nat with 0%nat by lia.
    reflexivity.
Qed.

Lemma add_data_lastn (l : list Window.item) (it : Window.item) :
  (length l <= 100)%nat ->
  Window.add_data l it = Window.lastn 100 (l ++ [it]) /\
  (length (Window.add_data l it) <= 100)%nat.
Proof.
  intros Hl; unfold Window.add_data, Window.lastn.
  assert (Hlen : length (l ++ [it]) = S (length l))
    by (rewrite length_app; simpl; lia).
  destruct (Nat.ltb_spec 100 (length (l ++ [it]))) as [Hgt|Hle].
  - replace (length (l ++ [it]) - 100)%nat with 1%nat by lia.
    destruct (l ++ [it]) eqn:E; simpl in *; split; try reflexivity; lia.
  - replace (length (l ++ [it]) - 100)%nat with 0%nat by lia.
    split; [reflexivity|exact Hle].
Qed.

Lemma fold_add_data (items : list Window.item) : forall l,
  (length l <= 100)%nat ->
  fold_left Window.add_data items l = Window.lastn 100 (l ++ items) /\
  (length (fold_left Window.add_data items l) <= 100)%nat.
Proof.
  induction items as [|it items IH]; intros l Hl; simpl.
  - rewrite app_nil_r; unfold Window.lastn.
    replace (length l - 100)%nat with 0%nat by lia; auto.
  - destruct (add_data_lastn l it Hl) as [He Hlen].
    destruct (IH _ Hlen) as [IH1 IH2]; split; [|exact IH2].
    rewrite IH1, He, lastn_app_lastn, <- app_assoc; reflexivity.
Qed.

(** X8: [refresh_ports] replaces the list of ports and keeps the selected
    port when it is still listed; otherwise, and when nothing was
    selected, it selects the first port, or none when the list is empty.
    It leaves the monitored thread, the button and the status label alone,
    also when the port being monitored is no longer listed. *)
Theorem refresh_keeps_the_selection_or_takes_the_first
    (w : Window.SerialMonitorWindow) (ports : list str) :
  let sel := port_current (Window.core w) in
  let w' := Window.refresh_ports w ports in
  port_combo (Window.core w') = ports /\
  (sel <> [] -> In sel ports -> port_current (Window.core w') = sel) /\
  (sel = [] \/ ~ In sel ports ->
   port_current (Window.core w') = hd [] ports) /\
  monitor_thread (Window.core w') = monitor_thread (Window.core w) /\
  Window.start_btn w' = Window.start_btn w /\
  Window.status_label w' = Window.status_label w.
Proof.
  intros sel w'; unfold w', Window.refresh_ports; fold sel; simpl.
  split; [reflexivity|]. split; [|split; [|auto]].
  - intros Hne Hin. destruct sel as [|c t] eqn:E; [contradiction|].
    rewrite (proj2 (found_In ports (c :: t)) Hin); reflexivity.
  - intros [He|Hn].
    + rewrite He; destruct ports; reflexivity.
    + destruct sel as [|c t] eqn:E; [destruct ports; reflexivity|].
      destruct (Window.found ports (c :: t)) eqn:Ef;
        [apply found_In in Ef; contradiction|].
      destruct ports; reflexivity.
Qed.

Lemma refresh_selected (w : Window.SerialMonitorWindow) (ports : list str) :
  match ports with
  | [] => port_current (Window.core (Window.refresh_ports w ports)) = []
  | _ :: _ => In (port_current (Window.core (Window.refresh_ports w ports)))
                 ports
  end.
Proof.
  unfold Window.refresh_ports; simpl.
  destruct (port_current (Window.core w)) as [|c t];
    [destruct ports; [reflexivity|left; reflexivity]|].
  destruct (Window.found ports (c :: t)) eqn:Ef.
  - apply found_In in Ef; destruct ports; [contradiction|exact Ef].
  - destruct ports; [reflexivity|left; reflexivity].
Qed.

Lemma stop_tidy (h : store) (w : Window.SerialMonitorWindow) :
  Window.tidy (h, w) -> Window.tidy (Window.stop_monitoring h w).
Proof.
  intros (Hb & Hd & Hp).
  unfold Window.stop_monitoring, stop_monitoring.
  destruct (monitor_thread (Window.core w)) as [r|] eqn:E; simpl;
    repeat split; try assumption; rewrite ?E; reflexivity.
Qed.

Section Slots.

Variable py_int : str -> option Z.
Variable str_int : Z -> str.
Variable strftime : datetime -> str.
Variable strftime_hms : datetime -> str.

Local Abbreviation start_monitoring := (Window.start_monitoring py_int str_int).
Local Abbreviation handle :=
  (Window.handle py_int str_int strftime strftime_hms).
Local Abbreviation handle_all :=
  (Window.handle_all py_int str_int strftime strftime_hms).
Local Abbreviation data_items := (Window.data_items strftime_hms).
Local Abbreviation timeout_items := (Window.timeout_items strftime).

(** What [start_monitoring] does, by cases on the warnings it shows. *)
Lemma start_monitoring_cases (h : store) (w : Window.SerialMonitorWindow) :
  (exists text,
     start_monitoring h w
       = (h, w, [Window.warning Window.warning_title text])) \/
  (exists b t,
     port_combo (Window.core w) <> [] /\
     py_int (baud_edit (Window.core w)) = Some b /\
     py_int (timeout_edit (Window.core w)) = Some t /\
     start_monitoring h w =
       (h ++ [SerialMonitorThread_init (port_current (Window.core w)) b t],
        Window.set_buttons
          (Window.set_core w
             (set_monitor_thread (Window.core w) (Some (length h))))
          Window.stop_button
          {| Window.w_text :=
               Window.monitoring_text ++ port_current (Window.core w)
                 ++ Window.baud_text ++ str_int b;
             Window.w_style := StyleSheet.green_label |},
        [])).
Proof.
  unfold Window.start_monitoring.
  destruct (port_combo (Window.core w)) as [|p ps]; [left; eauto|].
  destruct (py_int (baud_edit (Window.core w))) as [b|]; [|left; eauto].
  destruct (py_int (timeout_edit (Window.core w))) as [t|]; [|left; eauto].
  right; exists b, t; repeat split; discriminate.
Qed.

Lemma start_tidy (h : store) (w : Window.SerialMonitorWindow) :
  Window.tidy (h, w) -> Window.tidy (fst (start_monitoring h w)).
Proof.
  intros Ht.
  destruct (start_monitoring_cases h w) as [(text & ->)|(b & t & _ & _ & _ & ->)];
    [exact Ht|].
  destruct Ht as (_ & Hd & Hp); simpl.
  repeat split; [rewrite length_app; simpl; lia|exact Hd|exact Hp].
Qed.

Lemma handle_tidy (st : store * Window.SerialMonitorWindow)
    (ev : Window.gui_event) :
  Window.tidy st -> Window.tidy (fst (handle st ev)).
Proof.
  destruct st as [h w]; intros Ht.
  destruct ev as [isRunning| |ports|i|t|t|now data|now info|msg|]; simpl.
  - unfold Window.toggle_monitoring.
    destruct (monitor_thread (Window.core w));
      [destruct isRunning|]; try apply start_tidy; try exact Ht.
    simpl; apply stop_tidy; exact Ht.
  - destruct Ht as (Hb & _ & Hp); repeat split; [exact Hb|simpl; lia|exact Hp].
  - destruct Ht as (Hb & Hd & _); repeat split; try assumption.
    simpl; apply refresh_selected.
  - destruct (nth_error (port_combo (Window.core w)) i) as [p|] eqn:E;
      [|exact Ht].
    destruct Ht as (Hb & Hd & Hp); simpl; repeat split; try assumption.
    apply nth_error_In in E.
    destruct (port_combo (Window.core w)); [contradiction|exact E].
  - exact Ht.
  - exact Ht.
  - destruct Ht as (Hb & Hd & Hp); simpl; repeat split; try assumption.
    apply add_data_lastn; exact Hd.
  - exact Ht.
  - unfold Window.on_error_occurred.
    pose proof (stop_tidy h
      (Window.set_buttons w (Window.start_btn w)
         {| Window.w_text := Window.error_text ++ msg;
            Window.w_style := StyleSheet.red_label |}) Ht) as H.
    destruct (Window.stop_monitoring h _) as [h' w2]; exact H.
  - unfold Window.closeEvent.
    pose proof (stop_tidy h w Ht) as H.
    destruct (Window.stop_monitoring h w) as [h' w2]; simpl.
    destruct (Window.refresh_timer w2); exact H.
Qed.

Lemma handle_all_tidy (evs : list Window.gui_event) :
  forall st, Window.tidy st -> Window.tidy (handle_all st evs).
Proof.
  induction evs as [|ev evs IH]; intros st Ht; [exact Ht|].
  simpl; apply IH, handle_tidy, Ht.
Qed.

Lemma init_tidy (ports : list str) : Window.tidy ([], Window.init ports).
Proof.
  unfold Window.init; repeat split; [simpl; lia|].
  apply (refresh_selected _ ports).
Qed.

(** X9: whatever happens to the window, by clicks, edits, refreshes,
    signals or closing, the button shows "停止监控" exactly while a thread is
    being monitored, and that thread is an object of the store; otherwise
    it shows "开始监控". *)
Theorem button_tells_whether_a_thread_is_monitored
    (ports : list str) (evs : list Window.gui_event) :
  match monitor_thread
          (Window.core (snd (handle_all ([], Window.init ports) evs))) with
  | Some r =>
      (r < length (fst (handle_all ([], Window.init ports) evs)))%nat /\
      Window.start_btn (snd (handle_all ([], Window.init ports) evs))
        = Window.stop_button
  | None =>
      Window.start_btn (snd (handle_all ([], Window.init ports) evs))
        = Window.start_button
  end.
Proof.
  pose proof (handle_all_tidy evs _ (init_tidy ports)) as H.
  destruct (handle_all ([], Window.init ports) evs) as [h w].
  exact (proj1 H).
Qed.

(** X10: in every state the window can reach, [start_monitoring] either
    shows one warning and changes nothing, or shows none and starts one new
    thread, built from the two fields as parsed, on the selected port, which
    is one of the listed ports. *)
Theorem start_uses_a_listed_port
    (ports : list str) (evs : list Window.gui_event)
    (h : store) (w : Window.SerialMonitorWindow) :
  handle_all ([], Window.init ports) evs = (h, w) ->
  (exists text,
     start_monitoring h w
       = (h, w, [Window.warning Window.warning_title text])) \/
  (exists b t w',
     py_int (baud_edit (Window.core w)) = Some b /\
     py_int (timeout_edit (Window.core w)) = Some t /\
     In (port_current (Window.core w)) (port_combo (Window.core w)) /\
     monitor_thread (Window.core w') = Some (length h) /\
     start_monitoring h w =
       (h ++ [SerialMonitorThread_init (port_current (Window.core w)) b t],
        w', [])).
Proof.
  intros Hst.
  pose proof (handle_all_tidy evs _ (init_tidy ports)) as Ht.
  rewrite Hst in Ht; destruct Ht as (_ & _ & Hp).
  destruct (start_monitoring_cases h w)
    as [Hw|(b & t & Hne & Hb & Hto & Hs)]; [left; exact Hw|].
  right; exists b, t; eexists; repeat split; try eassumption.
  - destruct (port_combo (Window.core w)); [contradiction|exact Hp].
  - reflexivity.
Qed.

Lemma handle_lists (st : store * Window.SerialMonitorWindow)
    (ev : Window.gui_event) :
  Window.is_clear ev = false ->
  Window.data_list (snd (fst (handle st ev)))
    = fold_left Window.add_data (data_items [ev]) (Window.data_list (snd st))
  /\
  Window.record_list (snd (fst (handle st ev)))
    = Window.record_list (snd st) ++ timeout_items [ev].
Proof.
  destruct st as [h w].
  destruct ev as [isRunning| |ports|i|t|t|now data|now info|msg|]; simpl;
    intros Hc; try discriminate; rewrite ?app_nil_r; auto.
  - unfold Window.toggle_monitoring.
    assert (Hs : Window.data_list (snd (fst (start_monitoring h w)))
                   = Window.data_list w /\
                 Window.record_list (snd (fst (start_monitoring h w)))
                   = Window.record_list w).
    { destruct (start_monitoring_cases h w)
        as [(text & ->)|(b & t & _ & _ & _ & ->)]; auto. }
    destruct (monitor_thread (Window.core w)) eqn:E;
      [destruct isRunning|]; try exact Hs.
    unfold Window.stop_monitoring, stop_monitoring; rewrite E; auto.
  - destruct (nth_error (port_combo (Window.core w)) i); auto.
  - unfold Window.on_error_occurred, Window.stop_monitoring, stop_monitoring.
    simpl; destruct (monitor_thread (Window.core w)); auto.
  - unfold Window.closeEvent, Window.stop_monitoring, stop_monitoring.
    destruct (monitor_thread (Window.core w)); simpl;
      destruct (Window.refresh_timer w); auto.
Qed.

Lemma handle_all_lists (evs : list Window.gui_event) : forall st,
  forallb (fun ev => negb (Window.is_clear ev)) evs = true ->
  Window.data_list (snd (handle_all st evs))
    = fold_left Window.add_data (data_items evs) (Window.data_list (snd st))
  /\
  Window.record_list (snd (handle_all st evs))
    = Window.record_list (snd st) ++ timeout_items evs.
Proof.
  induction evs as [|ev evs IH]; intros st Hc;
    [simpl; rewrite app_nil_r; auto|].
  simpl in Hc; apply andb_true_iff in Hc; destruct Hc as [Hc Hcs].
  apply negb_true_iff in Hc.
  destruct (handle_lists st ev Hc) as [Hd Hr].
  destruct (IH (fst (handle st ev)) Hcs) as [IHd IHr].
  assert (Hd1 : data_items (ev :: evs) = data_items [ev] ++ data_items evs)
    by (unfold Window.data_items; simpl; rewrite app_nil_r; reflexivity).
  assert (Hr1 : timeout_items (ev :: evs)
                = timeout_items [ev] ++ timeout_items evs)
    by (unfold Window.timeout_items; simpl; rewrite app_nil_r; reflexivity).
  change (handle_all st (ev :: evs))
    with (handle_all (fst (handle st ev)) evs).
  rewrite Hd1, Hr1, IHd, IHr, Hd, Hr, fold_left_app, <- app_assoc; auto.
Qed.

(** X11: the data list keeps the newest 100 entries.  Over any sequence of
    events without a click on "清空记录", starting with at most 100 entries,
    the list ends up holding the last 100 of its former entries followed by
    one entry per [data_received], in order of arrival; nothing else
    touches it. *)
Theorem data_list_keeps_the_newest_100
    (st : store * Window.SerialMonitorWindow) (evs : list Window.gui_event) :
  forallb (fun ev => negb (Window.is_clear ev)) evs = true ->
  (length (Window.data_list (snd st)) <= 100)%nat ->
  Window.data_list (snd (handle_all st evs))
    = Window.lastn 100 (Window.data_list (snd st) ++ data_items evs) /\
  (length (Window.data_list (snd (handle_all st evs))) <= 100)%nat.
Proof.
  intros Hc Hl.
  destruct (handle_all_lists evs st Hc) as [-> _].
  apply fold_add_data; exact Hl.
Qed.

(** X12: timeout records are never dropped.  Over any sequence of events
    without a click on "清空记录", the record list ends up as it was,
    followed by one entry per [timeout_occurred], in order of arrival, with
    no bound on its length. *)
Theorem timeout_records_are_never_dropped
    (st : store * Window.SerialMonitorWindow) (evs : list Window.gui_event) :
  forallb (fun ev => negb (Window.is_clear ev)) evs = true ->
  Window.record_list (snd (handle_all st evs))
    = Window.record_list (snd st) ++ timeout_items evs.
Proof.
  intros Hc; exact (proj2 (handle_all_lists evs st Hc)).
Qed.

End Slots.

(** X13: the error text never stays in the status label.
    [on_error_occurred] writes it there and then calls [stop_monitoring],
    which overwrites the label with "监控已停止"; the message survives only in
    the message box.  The button is back to "开始监控" and no thread is
    monitored any more. *)
Theorem error_status_is_overwritten
    (h : store) (w : Window.SerialMonitorWindow) (msg : str) :
  Window.status_label (snd (fst (Window.on_error_occurred h w msg)))
    = {| Window.w_text := Window.stopped_text;
         Window.w_style := StyleSheet.grey_label |} /\
  Window.w_text
    (Window.status_label (snd (fst (Window.on_error_occurred h w msg))))
    <> Window.error_text ++ msg /\
  Window.start_btn (snd (fst (Window.on_error_occurred h w msg)))
    = Window.start_button /\
  monitor_thread
    (Window.core (snd (fst (Window.on_error_occurred h w msg)))) = None /\
  snd (Window.on_error_occurred h w msg)
    = [Window.critical Window.error_title msg].
Proof.
  unfold Window.on_error_occurred, Window.stop_monitoring, stop_monitoring.
  simpl; destruct (monitor_thread (Window.core w)) eqn:E; simpl;
    repeat split; try discriminate; exact E.
Qed.

(** X14: closing the window while the monitored thread is in its loop
    clears the flag of that thread, which was set, and touches no other
    thread object; the window then monitors nothing, shows the start
    button and the stopped label, and its refresh timer is stopped.
    Closing again changes nothing. *)
Theorem close_event_clears_the_flag_of_the_monitored_thread
    (h : store) (w : Window.SerialMonitorWindow)
    (r : ref) (th : SerialMonitorThread) :
  monitor_thread (Window.core w) = Some r ->
  nth_error h r = Some th ->
  is_running th = true ->
  nth_error (fst (Window.closeEvent h w)) r = Some (stop th) /\
  is_running (stop th) = false /\
  (forall r', r' <> r ->
     nth_error (fst (Window.closeEvent h w)) r' = nth_error h r') /\
  monitor_thread (Window.core (snd (Window.closeEvent h w))) = None /\
  Window.start_btn (snd (Window.closeEvent h w)) = Window.start_button /\
  Window.w_text (Window.status_label (snd (Window.closeEvent h w)))
    = Window.stopped_text /\
  Window.refresh_timer (snd (Window.closeEvent h w)) = false /\
  Window.closeEvent (fst (Window.closeEvent h w))
      (snd (Window.closeEvent h w))
    = Window.closeEvent h w.
Proof.
  intros Hm Hh Hr.
  unfold Window.closeEvent, Window.stop_monitoring, stop_monitoring.
  rewrite Hm; simpl.
  split; [rewrite nth_error_update, Hh; reflexivity|].
  split; [reflexivity|].
  split; [intros r' Hne; apply nth_error_update_other; exact Hne|].
  destruct (Window.refresh_timer w) eqn:E; simpl; rewrite ?E;
    repeat split; reflexivity.
Qed.

(** The window's [start_monitoring] does to the store and to the form what
    the [start_monitoring] of the application does; it adds the warnings,
    the button and the label. *)
Lemma start_monitoring_agrees
    (py_int : str -> option Z) (str_int : Z -> str)
    (h : store) (w : Window.SerialMonitorWindow) :
  fst (fst (Window.start_monitoring py_int str_int h w))
    = fst (fst (start_monitoring py_int h (Window.core w))) /\
  Window.core (snd (fst (Window.start_monitoring py_int str_int h w)))
    = snd (fst (start_monitoring py_int h (Window.core w))).
Proof.
  unfold Window.start_monitoring, start_monitoring.
  destruct (port_combo (Window.core w)); [auto|].
  destruct (py_int (baud_edit (Window.core w))); [|auto].
  destruct (py_int (timeout_edit (Window.core w))); auto.
Qed.

End WindowFacts.

(** * The further properties on the sample inputs *)

Lemma in_waiting_failure_ends_the_run_witness :
  open_port unplugged_session = Returns tt /\
  ticks unplugged_session
    = [quiet_tick 100000] ++ unplugged_tick boom 200000 :: [] /\
  while_is_running plain_strftime
      (opened sample_thread (now_start unplugged_session))
      [quiet_tick 100000]
    = ([], opened sample_thread 0, Exhausted) /\
  stop_called (unplugged_tick boom 200000) = false /\
  in_waiting (unplugged_tick boom 200000) = Raises (Exception boom) /\
  run plain_strftime sample_thread unplugged_session
    = ([] ++ [error_occurred (connect_error_prefix ++ boom)],
       finally_block (opened sample_thread 0), Finished).
Proof.
  assert (H1 : open_port unplugged_session = Returns tt) by reflexivity.
  assert (H2 : ticks unplugged_session
               = [quiet_tick 100000] ++ unplugged_tick boom 200000 :: [])
    by reflexivity.
  assert (H3 : while_is_running plain_strftime
                 (opened sample_thread (now_start unplugged_session))
                 [quiet_tick 100000]
               = ([], opened sample_thread 0, Exhausted)) by reflexivity.
  assert (H4 : stop_called (unplugged_tick boom 200000) = false)
    by reflexivity.
  assert (H5 : in_waiting (unplugged_tick boom 200000)
               = Raises (Exception boom)) by reflexivity.
  split; [exact H1|]. split; [exact H2|]. split; [exact H3|].
  split; [exact H4|]. split; [exact H5|].
  exact (proj1 (in_waiting_failure_ends_the_run plain_strftime
                  sample_thread unplugged_session tt _ _ _ _ _ _
                  H1 H2 H3 H4 H5)).
Defined.

Lemma stop_ends_the_run_silently_witness :
  open_port stopped_session = Returns tt /\
  ticks stopped_session = [quiet_tick 100000] ++ stop_tick 200000 :: [] /\
  while_is_running plain_strftime
      (opened sample_thread (now_start stopped_session)) [quiet_tick 100000]
    = ([], opened sample_thread 0, Exhausted) /\
  stop_called (stop_tick 200000) = true /\
  run plain_strftime sample_thread stopped_session
    = ([], finally_block (stop (opened sample_thread 0)), Finished).
Proof.
  assert (H1 : open_port stopped_session = Returns tt) by reflexivity.
  assert (H2 : ticks stopped_session
               = [quiet_tick 100000] ++ stop_tick 200000 :: [])
    by reflexivity.
  assert (H3 : while_is_running plain_strftime
                 (opened sample_thread (now_start stopped_session))
                 [quiet_tick 100000]
               = ([], opened sample_thread 0, Exhausted)) by reflexivity.
  assert (H4 : stop_called (stop_tick 200000) = true) by reflexivity.
  split; [exact H1|]. split; [exact H2|]. split; [exact H3|].
  split; [exact H4|].
  exact (proj1 (stop_ends_the_run_silently plain_strftime
                  sample_thread stopped_session tt _ _ _ _ _
                  H1 H2 H3 H4)).
Defined.

Lemma run_never_clears_is_running_witness :
  open_port unplugged_session = Returns tt /\
  Forall (fun e => stop_called e = false) (ticks unplugged_session) /\
  snd (run plain_strftime sample_thread unplugged_session) = Finished /\
  is_running (snd (fst (run plain_strftime sample_thread unplugged_session)))
    = true.
Proof.
  assert (H1 : open_port unplugged_session = Returns tt) by reflexivity.
  assert (H2 : Forall (fun e => stop_called e = false)
                 (ticks unplugged_session)) by (repeat constructor).
  split; [exact H1|]. split; [exact H2|]. split; [reflexivity|].
  exact (run_never_clears_is_running plain_strftime
           sample_thread unplugged_session tt H1 H2).
Defined.

Lemma tick_emits_at_most_two_signals_witness :
  loop_body plain_strftime
      (opened (SerialMonitorThread_init COM3 9600 0) 0)
      (line_tick ping_line 2000000 2000050)
    = Returns ([data_received ping; fired plain_strftime 2000000],
               set_last_received_time
                 (opened (SerialMonitorThread_init COM3 9600 0) 0) 2000050) /\
  (length [data_received ping; fired plain_strftime 2000000%Z] <= 2)%nat.
Proof.
  assert (H1 : loop_body plain_strftime
                 (opened (SerialMonitorThread_init COM3 9600 0) 0)
                 (line_tick ping_line 2000000 2000050)
               = Returns ([data_received ping; fired plain_strftime 2000000],
                          set_last_received_time
                            (opened (SerialMonitorThread_init COM3 9600 0) 0)
                            2000050)) by reflexivity.
  split; [exact H1|].
  exact (proj1 (tick_emits_at_most_two_signals plain_strftime _ _ _ _ H1)).
Defined.

Lemma data_received_is_stripped_witness :
  In (data_received ping)
     (events (run plain_strftime sample_thread steady_session)) /\
  ping <> [] /\ lstrip ping = ping /\ rstrip ping = ping.
Proof.
  assert (H1 : In (data_received ping)
                 (events (run plain_strftime sample_thread steady_session)))
    by (left; reflexivity).
  split; [exact H1|].
  exact (data_received_is_stripped plain_strftime
           sample_thread steady_session ping H1).
Defined.

(** Thirteen iterations under a timeout of minus one second: thirteen
    timeouts. *)
Lemma negative_timeout_fires_every_tick_witness :
  -1 < 0 /\
  open_port silent_session = Returns tt /\
  Forall (fun e => stop_called e = false /\
                   exists n, in_waiting e = Returns n)
         (ticks silent_session) /\
  monotone (now_start silent_session :: clock (ticks silent_session)) /\
  length (timeouts (events (run plain_strftime
                              (SerialMonitorThread_init COM3 9600 (-1))
                              silent_session)))
    = length (ticks silent_session).
Proof.
  assert (H1 : -1 < 0) by reflexivity.
  assert (H2 : open_port silent_session = Returns tt) by reflexivity.
  assert (H3 : Forall (fun e => stop_called e = false /\
                                exists n, in_waiting e = Returns n)
                 (ticks silent_session))
    by (repeat constructor; exists 0; reflexivity).
  assert (H4 : monotone (now_start silent_session
                           :: clock (ticks silent_session)))
    by (repeat split; discriminate).
  split; [exact H1|]. split; [exact H2|]. split; [exact H3|].
  split; [exact H4|].
  exact (negative_timeout_fires_every_tick plain_strftime
           COM3 9600 (-1) silent_session tt H1 H2 H3 H4).
Defined.

Lemma early_stop_is_lost_witness :
  start_monitoring decimal_int (fst after_stop) (snd after_stop)
    = ([stop stale_thread; sample_thread],
       set_monitor_thread sample_app (Some 1%nat), Started 1%nat) /\
  stop_monitoring [stop stale_thread; sample_thread]
      (set_monitor_thread sample_app (Some 1%nat))
    = ([stop stale_thread; sample_thread],
       set_monitor_thread (set_monitor_thread sample_app (Some 1%nat)) None).
Proof.
  assert (H1 : start_monitoring decimal_int (fst after_stop) (snd after_stop)
               = ([stop stale_thread; sample_thread],
                  set_monitor_thread sample_app (Some 1%nat), Started 1%nat))
    by reflexivity.
  split; [exact H1|].
  exact (proj1 (early_stop_is_lost plain_strftime decimal_int
                  _ _ _ _ _ H1)).
Defined.

Lemma start_uses_a_listed_port_witness :
  Window.handle_all decimal_int plain_str_int plain_strftime plain_strftime
      ([], Window.init [COM3]) []
    = ([], Window.init [COM3]) /\
  ((exists text,
      Window.start_monitoring decimal_int plain_str_int [] (Window.init [COM3])
        = ([], Window.init [COM3],
           [Window.warning Window.warning_title text])) \/
   (exists b t w',
      decimal_int (baud_edit (Window.core (Window.init [COM3]))) = Some b /\
      decimal_int (timeout_edit (Window.core (Window.init [COM3]))) = Some t /\
      In (port_current (Window.core (Window.init [COM3])))
         (port_combo (Window.core (Window.init [COM3]))) /\
      monitor_thread (Window.core w') = Some (length (@nil SerialMonitorThread)) /\
      Window.start_monitoring decimal_int plain_str_int [] (Window.init [COM3])
        = ([] ++ [SerialMonitorThread_init
                    (port_current (Window.core (Window.init [COM3]))) b t],
           w', []))).
Proof.
  assert (H1 : Window.handle_all decimal_int plain_str_int plain_strftime
                 plain_strftime ([], Window.init [COM3]) []
               = ([], Window.init [COM3])) by reflexivity.
  split; [exact H1|].
  exact (WindowFacts.start_uses_a_listed_port decimal_int plain_str_int
           plain_strftime plain_strftime [COM3] [] [] (Window.init [COM3]) H1).
Defined.

Example default_form_starts_a_session :
  fst monitoring_window = [SerialMonitorThread_init COM3 9600 600] /\
  monitor_thread (Window.core (snd monitoring_window)) = Some 0%nat.
Proof. split; reflexivity. Qed.

Lemma data_list_keeps_the_newest_100_witness :
  forallb (fun ev => negb (Window.is_clear ev)) sample_events = true /\
  (length (Window.data_list (snd monitoring_window)) <= 100)%nat /\
  Window.data_list
    (snd (Window.handle_all decimal_int plain_str_int plain_strftime
            plain_strftime monitoring_window sample_events))
    = Window.lastn 100
        (Window.data_list (snd monitoring_window)
           ++ Window.data_items plain_strftime sample_events).
Proof.
  assert (H1 : forallb (fun ev => negb (Window.is_clear ev)) sample_events
               = true) by reflexivity.
  assert (H2 : (length (Window.data_list (snd monitoring_window)) <= 100)%nat)
    by (apply Nat.leb_le; reflexivity).
  split; [exact H1|]. split; [exact H2|].
  exact (proj1 (WindowFacts.data_list_keeps_the_newest_100 decimal_int
                  plain_str_int plain_strftime plain_strftime
                  monitoring_window sample_events H1 H2)).
Defined.

Lemma timeout_records_are_never_dropped_witness :
  forallb (fun ev => negb (Window.is_clear ev)) sample_events = true /\
  Window.record_list
    (snd (Window.handle_all decimal_int plain_str_int plain_strftime
            plain_strftime monitoring_window sample_events))
    = Window.record_list (snd monitoring_window)
        ++ Window.timeout_items plain_strftime sample_events.
Proof.
  assert (H1 : forallb (fun ev => negb (Window.is_clear ev)) sample_events
               = true) by reflexivity.
  split; [exact H1|].
  exact (WindowFacts.timeout_records_are_never_dropped decimal_int
           plain_str_int plain_strftime plain_strftime
           monitoring_window sample_events H1).
Defined.

Lemma close_event_clears_the_flag_of_the_monitored_thread_witness :
  monitor_thread (Window.core (snd looping_window)) = Some 0%nat /\
  nth_error (fst looping_window) 0
    = Some (opened (SerialMonitorThread_init COM3 9600 600) 0) /\
  is_running (opened (SerialMonitorThread_init COM3 9600 600) 0) = true /\
  nth_error
    (fst (Window.closeEvent (fst looping_window) (snd looping_window))) 0
    = Some (stop (opened (SerialMonitorThread_init COM3 9600 600) 0)).
Proof.
  assert (H1 : monitor_thread (Window.core (snd looping_window))
               = Some 0%nat) by reflexivity.
  assert (H2 : nth_error (fst looping_window) 0
               = Some (opened (SerialMonitorThread_init COM3 9600 600) 0))
    by reflexivity.
  assert (H3 : is_running (opened (SerialMonitorThread_init COM3 9600 600) 0)
               = true) by reflexivity.
  split; [exact H1|]. split; [exact H2|]. split; [exact H3|].
  exact (proj1 (WindowFacts.close_event_clears_the_flag_of_the_monitored_thread
                  _ _ _ _ H1 H2 H3)).
Defined.
